(** * discord-twitch-live-webhook: a shallow embedding of the relay

    The worker receives Twitch EventSub webhooks (src/index.ts), checks
    them, and forwards a message to a Discord webhook (src/discord.ts).
    This file embeds the request handler, the data aggregation and the
    Discord delivery as Rocq functions and proves what the handler does on
    each path.

    Conventions of the embedding:
    - a JavaScript string is a [string] of code units; every character the
      code inspects (the underscore, the characters of the webhook URL
      pattern) is ASCII;
    - a JavaScript number that holds a time or a delay is a [Num]: an
      integer or NaN;
    - [T | undefined] and [T | null] are [option T];
    - an [async] function is a computation in the monad [M], which threads
      a thrown exception (a rejected promise) and the list of observable
      actions issued so far, in issue order;
    - the functions imported from modules whose source is not part of the
      development (./twitch, ./utils, the platform's [fetch], [Date],
      [JSON.parse]) are the fields of a [World] record. *)

From Stdlib Require Import ZArith Ascii String.
From stdpp Require Import base option list strings gmap.

Local Open Scope Z_scope.

(** ** Exceptions, results and the effect monad *)

Inductive Exn : Type :=
| TypeError                      (* property read on undefined *)
| SyntaxError                    (* JSON.parse on malformed text *)
| WebhookError (message : string)
| FetchError (status : Z)
| OtherError (message : string). (* raised by an external collaborator *)

Inductive Result (A : Type) : Type :=
| Ok (a : A)
| Throw (e : Exn).
Arguments Ok {A} a.
Arguments Throw {A} e.

(** Numbers that may be NaN ([new Date(s).getTime()], [parseInt]). *)
Inductive Num : Type :=
| NaN
| Fin (z : Z).

Definition num_add (a b : Num) : Num :=
  match a, b with
  | Fin x, Fin y => Fin (x + y)
  | _, _ => NaN
  end.

Definition num_sub (a b : Num) : Num :=
  match a, b with
  | Fin x, Fin y => Fin (x - y)
  | _, _ => NaN
  end.

(** [a > b]: false as soon as one side is NaN. *)
Definition num_gt (a b : Num) : bool :=
  match a, b with
  | Fin x, Fin y => x >? y
  | _, _ => false
  end.

(** ** JavaScript string helpers *)

Module JsString.

(** Truthiness of a [string | undefined]: defined and not empty. *)
Definition truthy (o : option string) : bool :=
  match o with
  | Some s => negb (String.eqb s "")
  | None => false
  end.

Fixpoint startsWith (p s : string) : bool :=
  match p, s with
  | EmptyString, _ => true
  | String a p', String b s' => Ascii.eqb a b && startsWith p' s'
  | String _ _, EmptyString => false
  end.

Fixpoint drop (n : nat) (s : string) : string :=
  match n, s with
  | O, _ => s
  | S n', String _ s' => drop n' s'
  | S _, EmptyString => EmptyString
  end.

(** [s.includes(p)]. *)
Fixpoint includes (p s : string) : bool :=
  startsWith p s ||
  match s with
  | EmptyString => false
  | String _ s' => includes p s'
  end.

(** [s.replace(p, r)] for a string pattern [p] and a replacement [r]
    without dollar patterns: only the first occurrence is replaced. *)
Fixpoint replace (p r s : string) : string :=
  if startsWith p s then r +:+ drop (String.length p) s
  else match s with
       | EmptyString => EmptyString
       | String c s' => String c (replace p r s')
       end.

(** [s.replaceAll(p, r)] for a one-character pattern. *)
Fixpoint replaceAll_char (c : ascii) (r s : string) : string :=
  match s with
  | EmptyString => EmptyString
  | String x s' =>
      (if Ascii.eqb x c then r else String x EmptyString)
        +:+ replaceAll_char c r s'
  end.

Definition upper (c : ascii) : ascii :=
  let n := nat_of_ascii c in
  if (97 <=? n)%nat && (n <=? 122)%nat then ascii_of_nat (n - 32) else c.

Definition lower (c : ascii) : ascii :=
  let n := nat_of_ascii c in
  if (65 <=? n)%nat && (n <=? 90)%nat then ascii_of_nat (n + 32) else c.

Fixpoint toLowerCase (s : string) : string :=
  match s with
  | EmptyString => EmptyString
  | String c s' => String (lower c) (toLowerCase s')
  end.

Definition newline : string := String (ascii_of_nat 10) EmptyString.

End JsString.

(** ** Regular expressions, as far as the webhook URL pattern needs them

  A backtracking matcher in continuation-passing style: alternatives are
  tried left to right and quantifiers are greedy, as in ECMAScript. *)

Module RegExp.

Inductive t : Type :=
| Chr (c : ascii)                  (* a literal character *)
| Class (p : ascii -> bool)        (* a character class *)
| Seq (r1 r2 : t)
| Alt (r1 r2 : t)
| Rep (r : t) (min extra : nat)    (* r{min,min+extra}, greedy *)
| Group (name : string) (r : t)    (* (?<name>r) *)
| Eps.

Definition captures := list (string * string).

Definition is_digit (c : ascii) : bool :=
  let n := nat_of_ascii c in (48 <=? n)%nat && (n <=? 57)%nat.

Definition is_word (c : ascii) : bool :=
  let n := nat_of_ascii c in
  is_digit c
  || ((65 <=? n)%nat && (n <=? 90)%nat)
  || ((97 <=? n)%nat && (n <=? 122)%nat)
  || (n =? 95)%nat.

(** Text consumed between [s] and its suffix [rest]. *)
Fixpoint take (n : nat) (s : string) : string :=
  match n, s with
  | S n', String c s' => String c (take n' s')
  | _, _ => EmptyString
  end.

Definition consumed (s rest : string) : string :=
  take (String.length s - String.length rest) s.

Section Match.
Context {A : Type}.
  (** [ci]: the [i] flag. *)
Variable ci : bool.

Definition chr_eq (c x : ascii) : bool :=
  if ci then Ascii.eqb (JsString.upper c) (JsString.upper x)
  else Ascii.eqb c x.

Fixpoint run (r : t) (s : string) (caps : captures)
    (k : string -> captures -> option A) {struct r} : option A :=
  match r with
  | Eps => k s caps
  | Chr c =>
      match s with
      | String x s' => if chr_eq c x then k s' caps else None
      | EmptyString => None
      end
  | Class p =>
      match s with
      | String x s' => if p x then k s' caps else None
      | EmptyString => None
      end
  | Seq r1 r2 => run r1 s caps (fun s1 c1 => run r2 s1 c1 k)
  | Alt r1 r2 =>
      match run r1 s caps k with
      | Some a => Some a
      | None => run r2 s caps k
      end
  | Group name r1 =>
      run r1 s caps (fun s1 c1 => k s1 ((name, consumed s s1) :: c1))
  | Rep r1 min extra =>
      let fix optional (n : nat) (s0 : string) (c0 : captures) : option A :=
        match n with
        | O => k s0 c0
        | S n' =>
            match run r1 s0 c0 (optional n') with
            | Some a => Some a
            | None => k s0 c0
            end
        end in
      let fix required (n : nat) (s0 : string) (c0 : captures) : option A :=
        match n with
        | O => optional extra s0 c0
        | S n' => run r1 s0 c0 (required n')
        end in
      required min s caps
  end.
End Match.

(** [pattern.exec(s)] without the [g] or [y] flag: the first start
    position with a match wins; the result is the list of named groups. *)
Fixpoint exec (ci : bool) (r : t) (s : string) : option captures :=
  match run ci r s [] (fun _ caps => Some caps) with
  | Some caps => Some caps
  | None =>
      match s with
      | EmptyString => None
      | String _ s' => exec ci r s'
      end
  end.

Fixpoint group (name : string) (caps : captures) : option string :=
  match caps with
  | [] => None
  | (n, v) :: caps' => if String.eqb n name then Some v else group name caps'
  end.

Fixpoint lit (s : string) : t :=
  match s with
  | EmptyString => Eps
  | String c s' => Seq (Chr c) (lit s')
  end.

Definition opt (r : t) : t := Rep r 0 1.

End RegExp.


(** ** Data: the Twitch resources and the request bodies

    The type declarations of ./twitch are not part of the development; the
    records below have the fields that index.ts reads. *)

Module Stream.
Record t : Type := mk {
  user_id : string;
  user_login : string;
  user_name : string;
  game_id : string;
  game_name : string;
  title : string;
  started_at : string;
  language : string;
  thumbnail_url : string
}.
End Stream.

Module Channel.
Record t : Type := mk {
  broadcaster_id : string;
  broadcaster_login : string;
  broadcaster_name : string;
  broadcaster_language : string;
  game_id : string;
  game_name : string;
  title : string;
  delay : Num
}.
End Channel.

Module User.
Record t : Type := mk {
  profile_image_url : string
}.
End User.

Record Condition : Type := {
  broadcaster_user_id : string
}.

Record Subscription : Type := {
  type : string;
  status : string;
  condition : Condition
}.

(** [WebhookBody]: every EventSub body carries the subscription; the
    callback-verification body also carries the challenge. *)
Record WebhookBody : Type := {
  subscription : Subscription;
  challenge : option string
}.

Record Env : Type := {
  TWITCH_CLIENT_ID : string;
  TWITCH_CLIENT_SECRET : string;
  TWITCH_AGE_WARNING : option string;
  DISCORD_WEBHOOK_ID : option string;
  DISCORD_WEBHOOK_TOKEN : option string;
  DISCORD_WEBHOOK_URL : option string;
  DISCORD_USERNAME : option string;
  DISCORD_AVATAR_URL : option string
}.

(** An inbound request whose body has been received: [request.blob()]
    yields [body]. Header names are case-insensitive, so the map is keyed
    by the lower-case name. *)
Record Request : Type := {
  headers : gmap string string;
  body : string
}.

Definition Headers_get (r : Request) (name : string) : option string :=
  headers r !! JsString.toLowerCase name.

Module Response.
Record t : Type := mk {
  body : option string;
  status : Z
}.
End Response.

(** The query object of [getStreams]. *)
Module StreamFilter.
Record t : Type := mk {
  type : string;
  userIds : list string
}.
End StreamFilter.

Record StreamInfo : Type := {
  userId : string;
  userLogin : string;
  userName : string;
  userAvatarUrl : string;
  gameId : string;
  gameName : string;
  title : string;
  delay : Num;
  startedAt : option Num;      (* the time value of the Date, if any *)
  language : string;
  thumbnailUrl : option string
}.

(** ** Data: the Discord message (src/discord.ts) *)

Module EmbedVisual.
Record t : Type := mk {
  url : string
}.
End EmbedVisual.

Module Embed.
Record t : Type := mk {
  title : option string;
  url : option string;
  thumbnail : option EmbedVisual.t;
  description : option string;
  image : option EmbedVisual.t
}.
End Embed.

Record WebhookMessageWithoutAttachmentsBody : Type := {
  username : option string;
  avatar_url : option string;
  content : option string;
  embeds : option (list Embed.t)
}.

Module WebhookOptions.
Record t : Type := mk {
  id : option string;
  token : option string;
  url : option string
}.
End WebhookOptions.

Module WebhookData.
Record t : Type := mk {
  id : string;
  token : string
}.
End WebhookData.

(** ** Observable actions *)

(** The work handed to [ctx.waitUntil]: the call that produced the
    promise, with its arguments. *)
Inductive Task : Type :=
| ForwardNotification (env : Env) (b : WebhookBody) (timestamp : Num)
| ForwardRevocation (env : Env) (b : WebhookBody).

Inductive Event : Type :=
| ConsoleError (err : Exn)
| ConsoleWarn (now : Z) (threshold : Num) (rawTimestamp : string)
| Authorize (clientId clientSecret : string)
| GetStreams (clientId token : string) (filter : StreamFilter.t)
| GetChannels (clientId token : string) (ids : list string)
| GetUsers (clientId token : string) (ids : list string)
| HttpPost (url : string) (message : WebhookMessageWithoutAttachmentsBody)
| WaitUntil (task : Task).

(** ** The monad of effectful code

    A computation yields a value or throws, and appends the actions it
    issued to the log. *)

Definition M (A : Type) : Type := Result A * list Event.

Definition ret {A} (a : A) : M A := (Ok a, []).

Definition throw {A} (e : Exn) : M A := (Throw e, []).

Definition emit (ev : Event) : M unit := (Ok tt, [ev]).

Definition lift {A} (r : Result A) : M A := (r, []).

Definition bind {A B} (m : M A) (f : A -> M B) : M B :=
  match m with
  | (Ok a, l) => let '(r, l') := f a in (r, l ++ l')
  | (Throw e, l) => (Throw e, l)
  end.

(** [try { m } catch (err) { h err }]. *)
Definition try_catch {A} (m : M A) (h : Exn -> M A) : M A :=
  match m with
  | (Ok a, l) => (Ok a, l)
  | (Throw e, l) => let '(r, l') := h e in (r, l ++ l')
  end.

Definition result {A} (m : M A) : Result A := fst m.
Definition log {A} (m : M A) : list Event := snd m.

Notation "'let*' x ':=' m 'in' k" := (bind m (fun x => k))
  (at level 10, x binder, m at level 100, k at level 200).
Notation "'let*' ' p ':=' m 'in' k" :=
  (bind m (fun x => match x with p => k end))
  (at level 10, p pattern, m at level 100, k at level 200).

(** [Promise.all([a, b, c])]: the three calls are issued in array order
    before any of them is awaited, so the actions of all three are in the
    log; the result is the triple of values, or a rejection as soon as one
    of them rejects. When several reject, the array order decides here
    which error is reported. *)
Definition Promise_all3 {A B C} (a : M A) (b : M B) (c : M C) : M (A * B * C) :=
  let l := log a ++ log b ++ log c in
  match result a, result b, result c with
  | Ok x, Ok y, Ok z => (Ok (x, y, z), l)
  | Throw e, _, _ => (Throw e, l)
  | _, Throw e, _ => (Throw e, l)
  | _, _, Throw e => (Throw e, l)
  end.

(** Reading a property of a possibly undefined object: [o.f] throws a
    TypeError when [o] is undefined. *)
Definition member {A B} (o : option A) (f : A -> B) : M B :=
  match o with
  | Some x => ret (f x)
  | None => throw TypeError
  end.

(** [l ?? r]: [r] is evaluated only when [l] is undefined. *)
Definition nullish {A} (l : option A) (r : M A) : M A :=
  match l with
  | Some v => ret v
  | None => r
  end.

(** [const { data: [x] } = ...]: the first element, or undefined. *)
Definition first {A} (data : list A) : option A := head data.

(** ** The external collaborators

    Everything the two modules import from code outside the development,
    and the platform. Each field is what a call returns; the action a call
    issues is logged by the wrapper that uses the field. *)

Record World : Type := {
  (* ./twitch *)
  verifyRequest : string -> Request -> string -> Result bool;
  isStreamOnlineBody : WebhookBody -> bool;
  channelUrl : string -> string;
  tokenResponse : string -> string -> Result string;
  streamsResponse : string -> string -> StreamFilter.t -> Result (list Stream.t);
  channelsResponse : string -> string -> list string -> Result (list Channel.t);
  usersResponse : string -> string -> list string -> Result (list User.t);
  (* ./utils *)
  requestHeader : Request -> string -> option string;
  (* ./discord, not in the version at hand *)
  relativeTimestamp : Num -> string;
  (* platform *)
  JSON_parse : string -> Result WebhookBody;
  Date_now : Z;
  Date_getTime : string -> Num;      (* new Date(s).getTime() *)
  parseInt : string -> Num;
  fetchStatus : string -> WebhookMessageWithoutAttachmentsBody -> Result Z
}.

(** ** src/discord.ts *)

Module Discord.

Definition API_VERSION : string := "10".

Definition API_BASE_ENDPOINT : string := "https://discord.com/api/v" +:+ API_VERSION.

Definition seqs (rs : list RegExp.t) : RegExp.t :=
  foldr RegExp.Seq RegExp.Eps rs.

Definition word_or_dash (c : ascii) : bool :=
  RegExp.is_word c || Ascii.eqb c "-".

(** The pattern, piece by piece:
    https?:\/\/ (?:ptb\.|canary\.)? discord\.com\/api (?:\/v\d{1,2})?
    \/webhooks\/ (?<id>\d{17,19}) \/ (?<token>[\w-]{68}), flag i. *)
Definition WebhookUrlPattern : RegExp.t :=
  seqs [
    RegExp.lit "http"; RegExp.opt (RegExp.Chr "s"); RegExp.lit "://";
    RegExp.opt (RegExp.Alt (RegExp.lit "ptb.") (RegExp.lit "canary."));
    RegExp.lit "discord.com/api";
    RegExp.opt (RegExp.Seq (RegExp.lit "/v")
                  (RegExp.Rep (RegExp.Class RegExp.is_digit) 1 1));
    RegExp.lit "/webhooks/";
    RegExp.Group "id" (RegExp.Rep (RegExp.Class RegExp.is_digit) 17 2);
    RegExp.Chr "/";
    RegExp.Group "token" (RegExp.Rep (RegExp.Class word_or_dash) 68 0)
  ].

Definition WebhookUrlPattern_exec (s : string) : option RegExp.captures :=
  RegExp.exec true WebhookUrlPattern s.

(** The parameter is destructured into [url] and the rest [data]; the
    cast [<WebhookData>data] is unchecked and [match.groups!.id] is a
    non-null assertion, hence the two [default]s, which are never hit. *)
Definition resolveWebhookOptions (o : WebhookOptions.t) : option WebhookData.t :=
  if JsString.truthy (WebhookOptions.id o) && JsString.truthy (WebhookOptions.token o)
  then
    Some {| WebhookData.id := default "" (WebhookOptions.id o);
            WebhookData.token := default "" (WebhookOptions.token o) |}
  else
    match WebhookUrlPattern_exec (default "" (WebhookOptions.url o)) with
    | Some groups =>
        Some {| WebhookData.id := default "" (RegExp.group "id" groups);
                WebhookData.token := default "" (RegExp.group "token" groups) |}
    | None => None
    end.

Definition webhookUrl (webhook : WebhookData.t) : string :=
  API_BASE_ENDPOINT +:+ "/webhooks/" +:+ WebhookData.id webhook
  +:+ "/" +:+ WebhookData.token webhook.

Section WithWorld.
Context (w : World).

(** The platform's [fetch] with method POST and the message as JSON body:
    the request is logged, the response status comes from the world. *)
Definition http_post (u : string) (message : WebhookMessageWithoutAttachmentsBody) : M Z :=
  let* _ := emit (HttpPost u message) in
  lift (fetchStatus w u message).

Definition executeWebhook (webhookOptions : WebhookOptions.t)
    (message : WebhookMessageWithoutAttachmentsBody) : M unit :=
  match resolveWebhookOptions webhookOptions with
  | None => throw (WebhookError "Failed to resolve webhook ID and token")
  | Some webhook =>
      let u := webhookUrl webhook in
      let* res_status := http_post u message in
      if negb (res_status =? 204) then throw (FetchError res_status)
      else ret tt
  end.

End WithWorld.

End Discord.

(** ** The names index.ts imports from ./twitch *)

Module NotificationType.
(** Modelled from the spec: the enum [NotificationType] of ./twitch, whose
    source is missing; section 6 of the specification lists the three
    values of the message-type header. *)
Definition Notification : string := "notification".
Definition WebhookCallbackVerification : string := "webhook_callback_verification".
Definition Revocation : string := "revocation".
End NotificationType.

Module RequestHeaders.
(** Modelled from the spec: the enum [RequestHeaders] of ./twitch, whose
    source is missing; the specification names a message-type and a
    message-timestamp header, and these are their EventSub names. *)
Definition MessageType : string := "Twitch-Eventsub-Message-Type".
Definition MessageTimestamp : string := "Twitch-Eventsub-Message-Timestamp".
End RequestHeaders.

Module StreamFilterType.
(** Modelled from the spec: the enum [StreamFilterType] of ./twitch, whose
    source is missing; section 4.4 has the stream lookup filtered by the
    "live" status. *)
Definition Live : string := "live".
End StreamFilterType.

Module Twitch.
Section WithWorld.
Context (w : World).

(** Modelled from the spec: [authorize] of ./twitch, whose source is
    missing. Section 4.3: the operation obtains a valid bearer token (from
    the cache or from the token endpoint), hands it to [fn] and returns
    [fn]'s result; when no token can be obtained the authorization error
    is propagated and [fn] is not run. *)
Definition authorize {T} (clientId clientSecret : string) (fn : string -> M T) : M T :=
  let* _ := emit (Authorize clientId clientSecret) in
  let* token := lift (tokenResponse w clientId clientSecret) in
  fn token.

(** The three read calls: the request is logged, the answer comes from
    the world. *)
Definition getStreams (clientId token : string) (filter : StreamFilter.t) : M (list Stream.t) :=
  let* _ := emit (GetStreams clientId token filter) in
  lift (streamsResponse w clientId token filter).

Definition getChannels (clientId token : string) (ids : list string) : M (list Channel.t) :=
  let* _ := emit (GetChannels clientId token ids) in
  lift (channelsResponse w clientId token ids).

Definition getUsers (clientId token : string) (ids : list string) : M (list User.t) :=
  let* _ := emit (GetUsers clientId token ids) in
  lift (usersResponse w clientId token ids).

End WithWorld.
End Twitch.

(** ** src/index.ts *)

Module Index.
Section WithWorld.
Context (w : World).

Definition resolveWebhookEnvs (env : Env) : WebhookOptions.t :=
  {| WebhookOptions.id := DISCORD_WEBHOOK_ID env;
     WebhookOptions.token := DISCORD_WEBHOOK_TOKEN env;
     WebhookOptions.url := DISCORD_WEBHOOK_URL env |}.

Definition checkAge (env : Env) (timestamp : Num) (rawTimestamp : string) : M unit :=
  let threshold :=
    if JsString.truthy (TWITCH_AGE_WARNING env)
    then parseInt w (default "" (TWITCH_AGE_WARNING env))
    else Fin 300000 in
  let now := Date_now w in
  let age := num_sub (Fin now) timestamp in
  if num_gt age threshold then emit (ConsoleWarn now threshold rawTimestamp)
  else ret tt.

Definition resolveTimestamp (request : Request) (env : Env) : M Num :=
  let rawTimestamp := requestHeader w request RequestHeaders.MessageTimestamp in
  if JsString.truthy rawTimestamp then
    let raw := default "" rawTimestamp in
    let timestamp := Date_getTime w raw in
    let* _ := checkAge env timestamp raw in
    ret timestamp
  else ret (Fin (Date_now w)).

Definition fetchEventSubStreamInfo (env : Env) (b : WebhookBody) : M StreamInfo :=
  Twitch.authorize w (TWITCH_CLIENT_ID env) (TWITCH_CLIENT_SECRET env) (fun token =>
    let broadcaster := broadcaster_user_id (condition (subscription b)) in
    let* '(streams, channels, users) :=
      Promise_all3
        (Twitch.getStreams w (TWITCH_CLIENT_ID env) token
           {| StreamFilter.type := StreamFilterType.Live; StreamFilter.userIds := [broadcaster] |})
        (Twitch.getChannels w (TWITCH_CLIENT_ID env) token [broadcaster])
        (Twitch.getUsers w (TWITCH_CLIENT_ID env) token [broadcaster]) in
    let stream := first streams in
    let channel := first channels in
    let user := first users in
    let* v_userId :=
      nullish (Stream.user_id <$> stream) (member channel Channel.broadcaster_id) in
    let* v_userLogin :=
      nullish (Stream.user_login <$> stream) (member channel Channel.broadcaster_login) in
    let* v_userName :=
      nullish (Stream.user_name <$> stream) (member channel Channel.broadcaster_name) in
    let* v_userAvatarUrl := member user User.profile_image_url in
    let* v_gameId :=
      nullish (Stream.game_id <$> stream) (member channel Channel.game_id) in
    let* v_gameName :=
      nullish (Stream.game_name <$> stream) (member channel Channel.game_name) in
    let* v_title :=
      nullish (Stream.title <$> stream) (member channel Channel.title) in
    let* v_delay := member channel Channel.delay in
    let v_startedAt :=
      if JsString.truthy (Stream.started_at <$> stream)
      then Date_getTime w <$> (Stream.started_at <$> stream)
      else None in
    let* v_language :=
      nullish (Stream.language <$> stream) (member channel Channel.broadcaster_language) in
    ret {| userId := v_userId;
           userLogin := v_userLogin;
           userName := v_userName;
           userAvatarUrl := v_userAvatarUrl;
           gameId := v_gameId;
           gameName := v_gameName;
           title := v_title;
           delay := v_delay;
           startedAt := v_startedAt;
           language := v_language;
           thumbnailUrl := Stream.thumbnail_url <$> stream |}).

(** The embed description of the live notification. A Date object is
    always truthy, so the branch is on whether [startedAt] is defined. *)
Definition description (info : StreamInfo) (timestamp : Num) : string :=
  "**" +:+ userName info +:+ "** "
  +:+ (if bool_decide (is_Some (startedAt info)) then "went live" else "goes live")
  +:+ " "
  +:+ relativeTimestamp w
        (match startedAt info with
         | Some t => t
         | None => num_add timestamp (delay info)
         end)
  +:+ JsString.newline +:+ "Playing **" +:+ gameName info +:+ "**".

Definition notificationMessage (env : Env) (info : StreamInfo) (timestamp : Num)
    : WebhookMessageWithoutAttachmentsBody :=
  {| username := DISCORD_USERNAME env;
     avatar_url := DISCORD_AVATAR_URL env;
     content := Some "@everyone";
     embeds := Some [
       {| Embed.title := Some (title info);
          Embed.url := Some (channelUrl w (userLogin info));
          Embed.thumbnail := Some {| EmbedVisual.url := userAvatarUrl info |};
          Embed.description := Some (description info timestamp);
          Embed.image :=
            if JsString.truthy (thumbnailUrl info)
            then Some {| EmbedVisual.url := default "" (thumbnailUrl info) |}
            else None |} ] |}.

(** The body of the [try] block of [forwardNotification]. *)
Definition forwardNotification_try (env : Env) (b : WebhookBody) (timestamp : Num) : M unit :=
  let* info := fetchEventSubStreamInfo env b in
  Discord.executeWebhook w (resolveWebhookEnvs env) (notificationMessage env info timestamp).

Definition forwardNotification (env : Env) (b : WebhookBody) (timestamp : Num) : M unit :=
  try_catch (forwardNotification_try env b timestamp)
            (fun err => emit (ConsoleError err)).

Definition revocationMessage (env : Env) (broadcaster_name status : string)
    : WebhookMessageWithoutAttachmentsBody :=
  {| username := DISCORD_USERNAME env;
     avatar_url := DISCORD_AVATAR_URL env;
     content := Some ("Subscription to channel **" +:+ broadcaster_name
                      +:+ "** revoked: " +:+ status);
     embeds := None |}.

(** The body of the [try] block of [forwardRevocation]. *)
Definition forwardRevocation_try (env : Env) (b : WebhookBody) : M unit :=
  let* channels :=
    Twitch.authorize w (TWITCH_CLIENT_ID env) (TWITCH_CLIENT_SECRET env) (fun token =>
      Twitch.getChannels w (TWITCH_CLIENT_ID env) token
        [broadcaster_user_id (condition (subscription b))]) in
  let channel := first channels in
  let v_status := JsString.replace "_" " " (status (subscription b)) in
  let* name := member channel Channel.broadcaster_name in
  Discord.executeWebhook w (resolveWebhookEnvs env) (revocationMessage env name v_status).

Definition forwardRevocation (env : Env) (b : WebhookBody) : M unit :=
  try_catch (forwardRevocation_try env b)
            (fun err => emit (ConsoleError err)).

(** [ctx.waitUntil(p)] registers the promise and returns at once; the
    handler never awaits it. The registered work is logged as a [Task]
    and is run by [run_task]. *)
Definition handleNotification (env : Env) (b : WebhookBody) (timestamp : Num) : M Response.t :=
  let* _ := emit (WaitUntil (ForwardNotification env b timestamp)) in
  ret {| Response.body := None; Response.status := 204 |}.

Definition handleChallenge (b : WebhookBody) : M Response.t :=
  ret {| Response.body := challenge b; Response.status := 200 |}.

Definition handleRevocation (env : Env) (b : WebhookBody) : M Response.t :=
  let* _ := emit (WaitUntil (ForwardRevocation env b)) in
  ret {| Response.body := None; Response.status := 204 |}.

(** The [switch] on the message-type header: [None] when no case
    matches and control leaves the [try] block without returning. *)
Definition dispatch (request : Request) (env : Env) (json : WebhookBody)
    (timestamp : Num) : M (option Response.t) :=
  match Headers_get request RequestHeaders.MessageType with
  | Some t =>
      if String.eqb t NotificationType.Notification then
        let* r := handleNotification env json timestamp in ret (Some r)
      else if String.eqb t NotificationType.WebhookCallbackVerification then
        let* r := handleChallenge json in ret (Some r)
      else if String.eqb t NotificationType.Revocation then
        let* r := handleRevocation env json in ret (Some r)
      else ret None
  | None => ret None
  end.

(** The body of the [try] block of [fetch]: [Some r] when a [return r]
    is reached, [None] when control falls out of the [switch]. *)
Definition fetch_try (request : Request) (env : Env) : M (option Response.t) :=
  let blob := body request in
  let* verified := lift (verifyRequest w (TWITCH_CLIENT_SECRET env) request blob) in
  if negb verified then ret (Some {| Response.body := None; Response.status := 401 |})
  else
    let* timestamp := resolveTimestamp request env in
    let* json := lift (JSON_parse w blob) in
    if negb (isStreamOnlineBody w json)
    then ret (Some {| Response.body := None; Response.status := 403 |})
    else dispatch request env json timestamp.

(** The handler: a thrown exception is logged and, like a [switch] that
    matched no case, leads to the final [return] of status 400. *)
Definition fetch (request : Request) (env : Env) : M Response.t :=
  let* returned :=
    try_catch (fetch_try request env)
              (fun err => let* _ := emit (ConsoleError err) in ret None) in
  match returned with
  | Some response => ret response
  | None => ret {| Response.body := None; Response.status := 400 |}
  end.

(** The [try] block of the work that was handed to [ctx.waitUntil]. *)
Definition task_try (task : Task) : M unit :=
  match task with
  | ForwardNotification env b timestamp => forwardNotification_try env b timestamp
  | ForwardRevocation env b => forwardRevocation_try env b
  end.

(** Running the work that was handed to [ctx.waitUntil]. *)
Definition run_task (task : Task) : M unit :=
  match task with
  | ForwardNotification env b timestamp => forwardNotification env b timestamp
  | ForwardRevocation env b => forwardRevocation env b
  end.

End WithWorld.

(** The tasks a log has registered with [ctx.waitUntil]. *)
Definition scheduled (l : list Event) : list Task :=
  omap (fun ev => match ev with WaitUntil t => Some t | _ => None end) l.

(** Actions of the downstream path: token acquisition, platform reads,
    delivery, and the registration of asynchronous work. *)
Definition is_downstream (ev : Event) : bool :=
  match ev with
  | Authorize _ _ | GetStreams _ _ _ | GetChannels _ _ _ | GetUsers _ _ _
  | HttpPost _ _ | WaitUntil _ => true
  | ConsoleError _ | ConsoleWarn _ _ _ => false
  end.

(** The platform read calls among the actions of a log. *)
Definition is_api_call (ev : Event) : bool :=
  match ev with
  | GetStreams _ _ _ | GetChannels _ _ _ | GetUsers _ _ _ => true
  | _ => false
  end.

(** The messages a log has posted to the chat webhook. *)
Definition posted (l : list Event) : list WebhookMessageWithoutAttachmentsBody :=
  omap (fun ev => match ev with HttpPost _ m => Some m | _ => None end) l.

End Index.

(** ** The token cache under concurrent callers *)

Module TokenCache.

(** Modelled from the spec: the token cache behind [authorize] of
    ./twitch, whose source is missing. Section 4.3 of the specification:
    a cached token that has not passed its expiry, less a safety margin,
    is reused without a network call; otherwise one client-credentials
    request is sent and its answer is stored with the expiry "now +
    returned lifetime"; while that refresh is in flight, further callers
    wait for it; a failed refresh stores nothing and its error goes to all
    its waiters.

    JavaScript runs one invocation at a time and switches between them
    only at an [await], so concurrent invocations are an interleaving of
    two kinds of steps: a caller reaching the cache, and the token
    endpoint answering the refresh in flight. *)

Record AccessToken : Type := {
  bearer : string;
  expiry : Z
}.

(** [waiters]: [None] when no refresh is in flight, else the callers
    waiting for it, oldest first. *)
Record State : Type := {
  cached : option AccessToken;
  waiters : option (list nat)
}.

Inductive Input : Type :=
| Call (caller : nat) (now : Z)
| Settle (now : Z) (answer : Result (string * Z)).  (* token and lifetime *)

Inductive Output : Type :=
| TokenRequest
| Deliver (caller : nat) (outcome : Result string).

Section WithMargin.
Variable margin : Z.

Definition valid (now : Z) (st : State) : option string :=
  match cached st with
  | Some t => if now <? expiry t - margin then Some (bearer t) else None
  | None => None
  end.

Definition step (st : State) (i : Input) : State * list Output :=
  match i with
  | Call c now =>
      match valid now st with
      | Some tok => (st, [Deliver c (Ok tok)])
      | None =>
          match waiters st with
          | Some ws => ({| cached := cached st; waiters := Some (ws ++ [c]) |}, [])
          | None => ({| cached := cached st; waiters := Some [c] |}, [TokenRequest])
          end
      end
  | Settle now answer =>
      match waiters st with
      | None => (st, [])
      | Some ws =>
          match answer with
          | Ok (tok, lifetime) =>
              ({| cached := Some {| bearer := tok; expiry := now + lifetime |};
                  waiters := None |},
               map (fun c => Deliver c (Ok tok)) ws)
          | Throw e =>
              ({| cached := cached st; waiters := None |},
               map (fun c => Deliver c (Throw e)) ws)
          end
      end
  end.

Fixpoint run (st : State) (inputs : list Input) : State * list Output :=
  match inputs with
  | [] => (st, [])
  | i :: inputs' =>
      let '(st1, out1) := step st i in
      let '(st2, out2) := run st1 inputs' in
      (st2, out1 ++ out2)
  end.

End WithMargin.

Definition is_request (o : Output) : bool :=
  match o with
  | TokenRequest => true
  | Deliver _ _ => false
  end.

(** The number of token-endpoint requests among the outputs. *)
Definition requests (out : list Output) : nat :=
  length (List.filter is_request out).

(** What each caller was handed, in delivery order. *)
Definition deliveries (out : list Output) : list (nat * Result string) :=
  omap (fun o => match o with Deliver c r => Some (c, r) | TokenRequest => None end) out.

(** What a waiter of a refresh receives from its answer. *)
Definition outcome_of (answer : Result (string * Z)) : Result string :=
  match answer with
  | Ok (tok, _) => Ok tok
  | Throw e => Throw e
  end.

End TokenCache.

(** ** Concrete inputs, for running the definitions *)

Module Sample.

Definition env : Env :=
  {| TWITCH_CLIENT_ID := "client";
     TWITCH_CLIENT_SECRET := "secret";
     TWITCH_AGE_WARNING := None;
     DISCORD_WEBHOOK_ID := Some "12345678901234567";
     DISCORD_WEBHOOK_TOKEN := Some "webhook-token";
     DISCORD_WEBHOOK_URL := None;
     DISCORD_USERNAME := Some "relay";
     DISCORD_AVATAR_URL := None |}.

Definition body_of (type_ status_ : string) (challenge_ : option string) : WebhookBody :=
  {| subscription :=
       {| type := type_; status := status_;
          condition := {| broadcaster_user_id := "4242" |} |};
     challenge := challenge_ |}.

Definition stream : Stream.t :=
  {| Stream.user_id := "4242";
     Stream.user_login := "streamer";
     Stream.user_name := "Streamer";
     Stream.game_id := "509658";
     Stream.game_name := "Just Chatting";
     Stream.title := "live title";
     Stream.started_at := "2024-01-01T00:00:00Z";
     Stream.language := "en";
     Stream.thumbnail_url := "https://thumbs.example/live.jpg" |}.

Definition channel : Channel.t :=
  {| Channel.broadcaster_id := "4242";
     Channel.broadcaster_login := "streamer_login";
     Channel.broadcaster_name := "Streamer_Name";
     Channel.broadcaster_language := "de";
     Channel.game_id := "33214";
     Channel.game_name := "Fortnite";
     Channel.title := "channel title";
     Channel.delay := Fin 0 |}.

Definition user : User.t :=
  {| User.profile_image_url := "https://img.example/avatar.png" |}.

(** A world in which a request is authentic exactly when its signature
    header is [sha256=good], the raw body text names the parsed body, and
    the platform answers as given by the arguments. *)
Definition world
    (streams : Result (list Stream.t)) (channels : Result (list Channel.t))
    (users : Result (list User.t)) (post : Result Z) : World :=
  {| verifyRequest := fun _ r _ =>
       Ok (bool_decide (Headers_get r "Twitch-Eventsub-Message-Signature" = Some "sha256=good"));
     isStreamOnlineBody := fun b => String.eqb (type (subscription b)) "stream.online";
     channelUrl := fun login => "https://www.twitch.tv/" +:+ login;
     tokenResponse := fun _ _ => Ok "bearer";
     streamsResponse := fun _ _ _ => streams;
     channelsResponse := fun _ _ _ => channels;
     usersResponse := fun _ _ _ => users;
     requestHeader := Headers_get;
     relativeTimestamp := fun _ => "<t:0:R>";
     JSON_parse := fun s =>
       if String.eqb s "online" then Ok (body_of "stream.online" "enabled" None)
       else if String.eqb s "challenge" then
         Ok (body_of "stream.online" "webhook_callback_verification_pending"
               (Some "abc123"))
       else if String.eqb s "revoked" then
         Ok (body_of "stream.online" "notification_failures_exceeded" None)
       else if String.eqb s "follow" then Ok (body_of "channel.follow" "enabled" None)
       else Throw SyntaxError;
     Date_now := 1704067200000;
     Date_getTime := fun _ => Fin 1704067200000;
     parseInt := fun _ => NaN;
     fetchStatus := fun _ _ => post |}.

Definition offline : World := world (Ok []) (Ok [channel]) (Ok [user]) (Ok 204).
Definition online : World := world (Ok [stream]) (Ok [channel]) (Ok [user]) (Ok 204).
Definition no_user : World := world (Ok [stream]) (Ok [channel]) (Ok []) (Ok 204).
Definition users_rejected : World :=
  world (Ok [stream]) (Ok [channel]) (Throw (OtherError "users")) (Ok 204).

Definition request (signature : string) (message_type : option string) (raw : string) : Request :=
  {| headers :=
       <[ "twitch-eventsub-message-signature" := signature ]>
         (match message_type with
          | Some t => {[ "twitch-eventsub-message-type" := t ]}
          | None => ∅
          end);
     body := raw |}.

Definition token68 : string :=
  "abcdefghijklmnopqrstuvwxyzABCDEFGHIJKLMNOPQRSTUVWXYZ0123456789_-abcd".

Definition message : WebhookMessageWithoutAttachmentsBody :=
  {| username := None; avatar_url := None; content := Some "hello"; embeds := None |}.

(** A cache whose token expired at instant 1000, with no refresh in
    flight; three callers arrive after that. *)
Definition expired : TokenCache.State :=
  {| TokenCache.cached := Some {| TokenCache.bearer := "old"; TokenCache.expiry := 1000 |};
     TokenCache.waiters := None |}.

Definition callers : list (nat * Z) := [(1%nat, 2000); (2%nat, 2001); (3%nat, 2002)].

End Sample.

(** ** Predicates used in the statements *)

(** A log that holds nothing but age warnings. *)
Definition only_warnings (l : list Event) : Prop :=
  Forall (fun ev => exists now threshold raw, ev = ConsoleWarn now threshold raw) l.

(** A message-type header that is missing or is none of the three known
    kinds. *)
Definition unknown_kind (message_type : option string) : Prop :=
  match message_type with
  | None => True
  | Some t =>
      t <> NotificationType.Notification
      /\ t <> NotificationType.WebhookCallbackVerification
      /\ t <> NotificationType.Revocation
  end.

(** Two worlds that agree on everything the handler consults before it
    returns: the signature check, the parser, the body check, the header
    reader and the clock. They may differ on every downstream outcome: the
    token, the three platform reads and the delivery. *)
Definition same_inbound (w w' : World) : Prop :=
  verifyRequest w = verifyRequest w'
  /\ isStreamOnlineBody w = isStreamOnlineBody w'
  /\ requestHeader w = requestHeader w'
  /\ JSON_parse w = JSON_parse w'
  /\ Date_now w = Date_now w'
  /\ Date_getTime w = Date_getTime w'
  /\ parseInt w = parseInt w'.

(** ** Earlier versions of the aggregation

    The two earlier revisions of index.ts that the repository keeps differ
    from the current one in [fetchEventSubStreamInfo]. *)

(** [Promise.all([a, b])], as [Promise_all3]. *)
Definition Promise_all2 {A B} (a : M A) (b : M B) : M (A * B) :=
  let l := log a ++ log b in
  match result a, result b with
  | Ok x, Ok y => (Ok (x, y), l)
  | Throw e, _ => (Throw e, l)
  | _, Throw e => (Throw e, l)
  end.

(** The revision that asks for the stream first and for the channel only
    when there is no live stream. Its environment calls the secret
    TWITCH_SECRET; the field [TWITCH_CLIENT_SECRET] stands for it. *)
Module IndexV1.

Record StreamInfo : Type := {
  userId : string;
  userLogin : string;
  userName : string;
  gameId : string;
  gameName : string;
  title : string;
  startedAt : option Num;
  language : string;
  thumbnailUrl : option string
}.

Section WithWorld.
Context (w : World).

Definition fetchEventSubStreamInfo (env : Env) (b : WebhookBody) : M StreamInfo :=
  Twitch.authorize w (TWITCH_CLIENT_ID env) (TWITCH_CLIENT_SECRET env) (fun token =>
    let broadcaster := broadcaster_user_id (condition (subscription b)) in
    let* streams :=
      Twitch.getStreams w (TWITCH_CLIENT_ID env) token
        {| StreamFilter.type := StreamFilterType.Live;
           StreamFilter.userIds := [broadcaster] |} in
    match first streams with
    | Some stream =>
        ret {| userId := Stream.user_id stream;
               userLogin := Stream.user_login stream;
               userName := Stream.user_name stream;
               gameId := Stream.game_id stream;
               gameName := Stream.game_name stream;
               title := Stream.title stream;
               startedAt := Some (Date_getTime w (Stream.started_at stream));
               language := Stream.language stream;
               thumbnailUrl := Some (Stream.thumbnail_url stream) |}
    | None =>
        let* channels := Twitch.getChannels w (TWITCH_CLIENT_ID env) token [broadcaster] in
        let channel := first channels in
        let* v_userId := member channel Channel.broadcaster_id in
        let* v_userLogin := member channel Channel.broadcaster_login in
        let* v_userName := member channel Channel.broadcaster_name in
        let* v_gameId := member channel Channel.game_id in
        let* v_gameName := member channel Channel.game_name in
        let* v_title := member channel Channel.title in
        let* v_language := member channel Channel.broadcaster_language in
        ret {| userId := v_userId;
               userLogin := v_userLogin;
               userName := v_userName;
               gameId := v_gameId;
               gameName := v_gameName;
               title := v_title;
               startedAt := None;
               language := v_language;
               thumbnailUrl := None |}
    end).

End WithWorld.
End IndexV1.

(** The revision that asks for the stream and the channel together and
    has no user lookup yet. *)
Module IndexV2.

Record StreamInfo : Type := {
  userId : string;
  userLogin : string;
  userName : string;
  gameId : string;
  gameName : string;
  title : string;
  delay : Num;
  startedAt : option Num;
  language : string;
  thumbnailUrl : option string
}.

Section WithWorld.
Context (w : World).

Definition fetchEventSubStreamInfo (env : Env) (b : WebhookBody) : M StreamInfo :=
  Twitch.authorize w (TWITCH_CLIENT_ID env) (TWITCH_CLIENT_SECRET env) (fun token =>
    let broadcaster := broadcaster_user_id (condition (subscription b)) in
    let* '(streams, channels) :=
      Promise_all2
        (Twitch.getStreams w (TWITCH_CLIENT_ID env) token
           {| StreamFilter.type := StreamFilterType.Live;
              StreamFilter.userIds := [broadcaster] |})
        (Twitch.getChannels w (TWITCH_CLIENT_ID env) token [broadcaster]) in
    let stream := first streams in
    let channel := first channels in
    let* v_userId :=
      nullish (Stream.user_id <$> stream) (member channel Channel.broadcaster_id) in
    let* v_userLogin :=
      nullish (Stream.user_login <$> stream) (member channel Channel.broadcaster_login) in
    let* v_userName :=
      nullish (Stream.user_name <$> stream) (member channel Channel.broadcaster_name) in
    let* v_gameId :=
      nullish (Stream.game_id <$> stream) (member channel Channel.game_id) in
    let* v_gameName :=
      nullish (Stream.game_name <$> stream) (member channel Channel.game_name) in
    let* v_title :=
      nullish (Stream.title <$> stream) (member channel Channel.title) in
    let* v_delay := member channel Channel.delay in
    let v_startedAt :=
      if JsString.truthy (Stream.started_at <$> stream)
      then Date_getTime w <$> (Stream.started_at <$> stream)
      else None in
    let* v_language :=
      nullish (Stream.language <$> stream) (member channel Channel.broadcaster_language) in
    ret {| userId := v_userId;
           userLogin := v_userLogin;
           userName := v_userName;
           gameId := v_gameId;
           gameName := v_gameName;
           title := v_title;
           delay := v_delay;
           startedAt := v_startedAt;
           language := v_language;
           thumbnailUrl := Stream.thumbnail_url <$> stream |}).

End WithWorld.

End IndexV2.

(** The current view without the avatar. *)
Definition without_avatar (info : StreamInfo) : IndexV2.StreamInfo :=
  {| IndexV2.userId := userId info;
     IndexV2.userLogin := userLogin info;
     IndexV2.userName := userName info;
     IndexV2.gameId := gameId info;
     IndexV2.gameName := gameName info;
     IndexV2.title := title info;
     IndexV2.delay := delay info;
     IndexV2.startedAt := startedAt info;
     IndexV2.language := language info;
     IndexV2.thumbnailUrl := thumbnailUrl info |}.

(** ** Further predicates used in the statements *)

Fixpoint all_chars (p : ascii -> bool) (s : string) : bool :=
  match s with
  | EmptyString => true
  | String c s' => p c && all_chars p s'
  end.

(** A webhook target of the shape the URL pattern accepts: an id of 17 to
    19 digits and a token of 68 word characters or dashes. *)
Definition well_formed (webhook : WebhookData.t) : Prop :=
  all_chars RegExp.is_digit (WebhookData.id webhook) = true
  /\ (17 <= String.length (WebhookData.id webhook) <= 19)%nat
  /\ all_chars Discord.word_or_dash (WebhookData.token webhook) = true
  /\ String.length (WebhookData.token webhook) = 68%nat.

(** A regular expression without capture groups. *)
Fixpoint no_groups (r : RegExp.t) : bool :=
  match r with
  | RegExp.Group _ _ => false
  | RegExp.Seq r1 r2 | RegExp.Alt r1 r2 => no_groups r1 && no_groups r2
  | RegExp.Rep r1 _ _ => no_groups r1
  | RegExp.Chr _ | RegExp.Class _ | RegExp.Eps => true
  end.

(** The next character, if any, is outside the class. *)
Definition stops (p : ascii -> bool) (rest : string) : Prop :=
  match rest with
  | EmptyString => True
  | String x _ => p x = false
  end.

(** The threshold of [checkAge]. *)
Definition age_threshold (w : World) (env : Env) : Num :=
  if JsString.truthy (TWITCH_AGE_WARNING env)
  then parseInt w (default "" (TWITCH_AGE_WARNING env))
  else Fin 300000.

(** The answer of the handler as a decision table over the outcome of the
    signature check, of the parser, of the body check, and the
    message-type header. *)
Definition response_table (w : World) (request : Request) (env : Env) : Response.t :=
  let status n := {| Response.body := None; Response.status := n |} in
  match verifyRequest w (TWITCH_CLIENT_SECRET env) request (body request) with
  | Throw _ => status 400
  | Ok false => status 401
  | Ok true =>
      match JSON_parse w (body request) with
      | Throw _ => status 400
      | Ok json =>
          if negb (isStreamOnlineBody w json) then status 403
          else match Headers_get request RequestHeaders.MessageType with
               | Some k =>
                   if String.eqb k NotificationType.Notification then status 204
                   else if String.eqb k NotificationType.WebhookCallbackVerification
                   then {| Response.body := challenge json; Response.status := 200 |}
                   else if String.eqb k NotificationType.Revocation then status 204
                   else status 400
               | None => status 400
               end
      end
  end.

(** The timestamp header of a request as [resolveTimestamp] reads it. *)
Definition timestamp_of (w : World) (request : Request) : Num :=
  let rawTimestamp := requestHeader w request RequestHeaders.MessageTimestamp in
  if JsString.truthy rawTimestamp then Date_getTime w (default "" rawTimestamp)
  else Fin (Date_now w).

(** ** More concrete inputs *)

Module Sample2.

(** [w] with another clock. *)
Definition with_clock (now : Z) (w : World) : World :=
  {| verifyRequest := verifyRequest w;
     isStreamOnlineBody := isStreamOnlineBody w;
     channelUrl := channelUrl w;
     tokenResponse := tokenResponse w;
     streamsResponse := streamsResponse w;
     channelsResponse := channelsResponse w;
     usersResponse := usersResponse w;
     requestHeader := requestHeader w;
     relativeTimestamp := relativeTimestamp w;
     JSON_parse := JSON_parse w;
     Date_now := now;
     Date_getTime := Date_getTime w;
     parseInt := parseInt w;
     fetchStatus := fetchStatus w |}.

(** [w] with a token endpoint that fails. *)
Definition without_token (e : Exn) (w : World) : World :=
  {| verifyRequest := verifyRequest w;
     isStreamOnlineBody := isStreamOnlineBody w;
     channelUrl := channelUrl w;
     tokenResponse := fun _ _ => Throw e;
     streamsResponse := streamsResponse w;
     channelsResponse := channelsResponse w;
     usersResponse := usersResponse w;
     requestHeader := requestHeader w;
     relativeTimestamp := relativeTimestamp w;
     JSON_parse := JSON_parse w;
     Date_now := Date_now w;
     Date_getTime := Date_getTime w;
     parseInt := parseInt w;
     fetchStatus := fetchStatus w |}.

(** A request as [Sample.request], with a message-timestamp header. *)
Definition stamped (message_type raw : string) : Request :=
  {| headers :=
       <[ "twitch-eventsub-message-timestamp" := "2024-01-01T00:00:00Z" ]>
         (headers (Sample.request "sha256=good" (Some message_type) raw));
     body := raw |}.

(** Ten minutes after the timestamp every sample request parses to. *)
Definition late : World := with_clock 1704067800000 Sample.offline.

Definition no_channel : World :=
  Sample.world (Ok [Sample.stream]) (Ok []) (Ok [Sample.user]) (Ok 204).

Definition refused : World :=
  Sample.world (Ok []) (Ok [Sample.channel]) (Ok [Sample.user]) (Ok 404).

Definition webhook : WebhookData.t :=
  {| WebhookData.id := "12345678901234567"; WebhookData.token := Sample.token68 |}.

(** An environment that names the webhook by URL only. *)
Definition env_url (u : string) : Env :=
  {| TWITCH_CLIENT_ID := "client";
     TWITCH_CLIENT_SECRET := "secret";
     TWITCH_AGE_WARNING := Some "fast";
     DISCORD_WEBHOOK_ID := None;
     DISCORD_WEBHOOK_TOKEN := None;
     DISCORD_WEBHOOK_URL := Some u;
     DISCORD_USERNAME := None;
     DISCORD_AVATAR_URL := None |}.

End Sample2.

(** * Properties *)

(** ** The monad *)

Lemma bind_ok {A B} (a : A) (l : list Event) (f : A -> M B) :
  bind (Ok a, l) f = (result (f a), l ++ log (f a)).
Proof. unfold bind, result, log. destruct (f a); reflexivity. Qed.

Lemma bind_throw {A B} (e : Exn) (l : list Event) (f : A -> M B) :
  bind (Throw e, l) f = (Throw e, l).
Proof. reflexivity. Qed.

Lemma bind_ret {A B} (a : A) (f : A -> M B) : bind (ret a) f = f a.
Proof. unfold bind, ret. destruct (f a); reflexivity. Qed.

Lemma try_catch_never_throws {A} (m : M A) (h : Exn -> M A) :
  (forall e, exists a l, h e = (Ok a, l)) ->
  exists a, result (try_catch m h) = Ok a.
Proof.
  intros Hh. destruct m as [[a|e] l]; simpl.
  - exists a. reflexivity.
  - destruct (Hh e) as (a & l' & ->). exists a. reflexivity.
Qed.

Lemma try_catch_logs {A} (m : M A) (h : Exn -> M A) (e : Exn) :
  result m = Throw e ->
  log (try_catch m h) = log m ++ log (h e).
Proof.
  destruct m as [[a|e'] l]; simpl; intros H; [discriminate|].
  injection H as ->. unfold log. destruct (h e); reflexivity.
Qed.

Lemma try_catch_ok {A} (m : M A) (h : Exn -> M A) (a : A) :
  result m = Ok a -> try_catch m h = m.
Proof. destruct m as [[a'|e] l]; simpl; intros H; [reflexivity|discriminate]. Qed.

(** ** The timestamp of a request *)

Lemma only_warnings_not_downstream (l : list Event) :
  only_warnings l -> List.filter Index.is_downstream l = [].
Proof.
  induction 1 as [|ev l (now & th & raw & ->) _ IH]; simpl; [reflexivity|exact IH].
Qed.

Lemma only_warnings_not_scheduled (l : list Event) :
  only_warnings l -> Index.scheduled l = [].
Proof.
  induction 1 as [|ev l (now & th & raw & ->) _ IH]; simpl; [reflexivity|exact IH].
Qed.

Lemma checkAge_total (w : World) (env : Env) (timestamp : Num) (raw : string) :
  exists l, Index.checkAge w env timestamp raw = (Ok tt, l) /\ only_warnings l.
Proof.
  unfold Index.checkAge.
  destruct (num_gt _ _).
  - eexists. split; [reflexivity|]. repeat constructor. eauto.
  - exists []. split; [reflexivity|]. constructor.
Qed.

(** [resolveTimestamp] never throws, and the only action it can issue is
    the age warning. *)
Lemma resolveTimestamp_total (w : World) (request : Request) (env : Env) :
  exists t l, Index.resolveTimestamp w request env = (Ok t, l) /\ only_warnings l.
Proof.
  unfold Index.resolveTimestamp.
  destruct (JsString.truthy _).
  - destruct (checkAge_total w env
                (Date_getTime w (default "" (requestHeader w request RequestHeaders.MessageTimestamp)))
                (default "" (requestHeader w request RequestHeaders.MessageTimestamp)))
      as (l & -> & Hl).
    eexists _, _. split; [reflexivity|]. simpl. rewrite app_nil_r. exact Hl.
  - eexists _, []. split; [reflexivity|]. constructor.
Qed.

(** ** The request handler *)

(** C2. A request whose signature check returns false is answered with
    status 401 and no body, and the handler has issued no action at all:
    nothing is registered with [waitUntil], no token, platform or delivery
    call is made. The answer is reached knowing nothing of the world but
    the outcome of the signature check, so the body is neither parsed nor
    classified. *)
Theorem fetch_unverified_401 (w : World) (request : Request) (env : Env) :
  verifyRequest w (TWITCH_CLIENT_SECRET env) request (body request) = Ok false ->
  Index.fetch w request env = (Ok {| Response.body := None; Response.status := 401 |}, []).
Proof.
  intros Hv. unfold Index.fetch, Index.fetch_try.
  rewrite Hv. reflexivity.
Qed.

Lemma fetch_unverified_401_witness :
  Index.fetch Sample.offline (Sample.request "sha256=bad" (Some "notification") "online")
    Sample.env
  = (Ok {| Response.body := None; Response.status := 401 |}, []).
Proof. apply fetch_unverified_401. vm_compute. reflexivity. Defined.

(** What the handler does once the request is verified and parsed. *)
Lemma fetch_verified (w : World) (request : Request) (env : Env) (json : WebhookBody) :
  verifyRequest w (TWITCH_CLIENT_SECRET env) request (body request) = Ok true ->
  JSON_parse w (body request) = Ok json ->
  exists t l, Index.resolveTimestamp w request env = (Ok t, l) /\ only_warnings l /\
    Index.fetch_try w request env =
      if negb (isStreamOnlineBody w json)
      then (Ok (Some {| Response.body := None; Response.status := 403 |}), l)
      else (result (Index.dispatch request env json t),
            l ++ log (Index.dispatch request env json t)).
Proof.
  intros Hv Hj.
  destruct (resolveTimestamp_total w request env) as (t & l & Ht & Hl).
  exists t, l. split; [exact Ht|]. split; [exact Hl|].
  unfold Index.fetch_try. rewrite Hv. simpl. rewrite Ht. rewrite bind_ok.
  rewrite Hj. simpl.
  destruct (isStreamOnlineBody w json); simpl.
  - destruct (Index.dispatch request env json t); reflexivity.
  - rewrite app_nil_r. reflexivity.
Qed.

(** C4. A verified request whose parsed body is not of the supported
    stream-online kind is answered with status 403 and no body. The
    statement holds for every request, hence for every value of the
    message-type header, the challenge and revocation kinds included: the
    header is not read on this path. No downstream action is issued. *)
Theorem fetch_unsupported_403 (w : World) (request : Request) (env : Env)
    (json : WebhookBody) :
  verifyRequest w (TWITCH_CLIENT_SECRET env) request (body request) = Ok true ->
  JSON_parse w (body request) = Ok json ->
  isStreamOnlineBody w json = false ->
  result (Index.fetch w request env) = Ok {| Response.body := None; Response.status := 403 |}
  /\ List.filter Index.is_downstream (log (Index.fetch w request env)) = [].
Proof.
  intros Hv Hj Hs.
  destruct (fetch_verified w request env json Hv Hj) as (t & l & _ & Hl & Hf).
  rewrite Hs in Hf. simpl in Hf.
  unfold Index.fetch. rewrite Hf. simpl. rewrite app_nil_r.
  split; [reflexivity|]. apply only_warnings_not_downstream, Hl.
Qed.

Lemma fetch_unsupported_403_witness :
  let request := Sample.request "sha256=good" (Some "webhook_callback_verification") "follow" in
  result (Index.fetch Sample.offline request Sample.env)
    = Ok {| Response.body := None; Response.status := 403 |}
  /\ List.filter Index.is_downstream (log (Index.fetch Sample.offline request Sample.env)) = [].
Proof.
  apply (fetch_unsupported_403 Sample.offline _ Sample.env
           (Sample.body_of "channel.follow" "enabled" None));
    vm_compute; reflexivity.
Defined.

Lemma dispatch_unknown_kind (request : Request) (env : Env) (json : WebhookBody)
    (t : Num) :
  unknown_kind (Headers_get request RequestHeaders.MessageType) ->
  Index.dispatch request env json t = (Ok None, []).
Proof.
  unfold Index.dispatch, unknown_kind.
  destruct (Headers_get request RequestHeaders.MessageType) as [k|]; [|reflexivity].
  intros (H1 & H2 & H3).
  apply String.eqb_neq in H1, H2, H3. rewrite H1, H2, H3. reflexivity.
Qed.

(** C5, as the code has it. A verified request with a supported body
    whose message-type header is missing or is none of the three known
    kinds matches no case of the [switch]: the handler answers with status
    400 and no body, without logging an error and without issuing any
    downstream action. *)
Theorem fetch_unknown_kind_400 (w : World) (request : Request) (env : Env)
    (json : WebhookBody) :
  verifyRequest w (TWITCH_CLIENT_SECRET env) request (body request) = Ok true ->
  JSON_parse w (body request) = Ok json ->
  isStreamOnlineBody w json = true ->
  unknown_kind (Headers_get request RequestHeaders.MessageType) ->
  result (Index.fetch w request env) = Ok {| Response.body := None; Response.status := 400 |}
  /\ only_warnings (log (Index.fetch w request env)).
Proof.
  intros Hv Hj Hs Hk.
  destruct (fetch_verified w request env json Hv Hj) as (t & l & _ & Hl & Hf).
  rewrite Hs in Hf. simpl in Hf.
  rewrite (dispatch_unknown_kind request env json t Hk) in Hf. simpl in Hf.
  unfold Index.fetch. rewrite Hf. simpl. rewrite !app_nil_r.
  split; [reflexivity|exact Hl].
Qed.

Lemma fetch_unknown_kind_400_witness :
  let request := Sample.request "sha256=good" None "online" in
  result (Index.fetch Sample.offline request Sample.env)
    = Ok {| Response.body := None; Response.status := 400 |}
  /\ only_warnings (log (Index.fetch Sample.offline request Sample.env)).
Proof.
  apply (fetch_unknown_kind_400 Sample.offline _ Sample.env
           (Sample.body_of "stream.online" "enabled" None));
    vm_compute; (reflexivity || exact I).
Defined.

(** C5, as the specification has it, fails: here is a verified request
    with a supported body and an unknown message type, and the answer is
    not the "forbidden" status 403. *)
Lemma fetch_unknown_kind_not_403 :
  let w := Sample.offline in
  let request := Sample.request "sha256=good" (Some "bogus") "online" in
  verifyRequest w (TWITCH_CLIENT_SECRET Sample.env) request (body request) = Ok true
  /\ JSON_parse w (body request) = Ok (Sample.body_of "stream.online" "enabled" None)
  /\ isStreamOnlineBody w (Sample.body_of "stream.online" "enabled" None) = true
  /\ unknown_kind (Headers_get request RequestHeaders.MessageType)
  /\ result (Index.fetch w request Sample.env)
       = Ok {| Response.body := None; Response.status := 400 |}
  /\ result (Index.fetch w request Sample.env)
       <> Ok {| Response.body := None; Response.status := 403 |}.
Proof.
  repeat split; try (vm_compute; reflexivity); vm_compute; congruence.
Qed.

(** C8. A verified callback-verification request whose supported body
    carries the challenge [c] is answered with status 200 and body exactly
    [c]; nothing is registered with [waitUntil] and no token, platform or
    delivery call is issued. *)
Theorem fetch_challenge_200 (w : World) (request : Request) (env : Env)
    (json : WebhookBody) (c : string) :
  verifyRequest w (TWITCH_CLIENT_SECRET env) request (body request) = Ok true ->
  JSON_parse w (body request) = Ok json ->
  isStreamOnlineBody w json = true ->
  Headers_get request RequestHeaders.MessageType
    = Some NotificationType.WebhookCallbackVerification ->
  challenge json = Some c ->
  result (Index.fetch w request env) = Ok {| Response.body := Some c; Response.status := 200 |}
  /\ List.filter Index.is_downstream (log (Index.fetch w request env)) = [].
Proof.
  intros Hv Hj Hs Hk Hc.
  destruct (fetch_verified w request env json Hv Hj) as (t & l & _ & Hl & Hf).
  rewrite Hs in Hf. simpl in Hf.
  unfold Index.dispatch in Hf. rewrite Hk in Hf. simpl in Hf.
  unfold Index.handleChallenge in Hf. rewrite Hc in Hf. simpl in Hf.
  unfold Index.fetch. rewrite Hf. simpl. rewrite !app_nil_r.
  split; [reflexivity|]. apply only_warnings_not_downstream, Hl.
Qed.

Lemma fetch_challenge_200_witness :
  let request := Sample.request "sha256=good" (Some "webhook_callback_verification") "challenge" in
  result (Index.fetch Sample.offline request Sample.env)
    = Ok {| Response.body := Some "abc123"; Response.status := 200 |}
  /\ List.filter Index.is_downstream (log (Index.fetch Sample.offline request Sample.env)) = [].
Proof.
  apply (fetch_challenge_200 Sample.offline _ Sample.env
           (Sample.body_of "stream.online" "webhook_callback_verification_pending"
              (Some "abc123")));
    vm_compute; reflexivity.
Defined.

(** The handler consults the world only through its inbound part. *)
Lemma fetch_inbound_only (w w' : World) (request : Request) (env : Env) :
  same_inbound w w' -> Index.fetch w' request env = Index.fetch w request env.
Proof.
  destruct w, w'. unfold same_inbound. simpl.
  intros (-> & -> & -> & -> & -> & -> & ->). reflexivity.
Qed.

(** The asynchronous work catches whatever its [try] block throws. *)
Lemma run_task_never_throws (w : World) (task : Task) :
  result (Index.run_task w task) = Ok tt.
Proof.
  destruct task as [env b t|env b]; simpl;
    unfold Index.forwardNotification, Index.forwardRevocation;
    match goal with |- result (try_catch ?m _) = _ => destruct m as [[[]|e] l] end;
    reflexivity.
Qed.

Lemma run_task_logs_error (w : World) (task : Task) (e : Exn) :
  result (Index.task_try w task) = Throw e ->
  log (Index.run_task w task) = log (Index.task_try w task) ++ [ConsoleError e].
Proof.
  destruct task as [env b t|env b]; simpl; intros H;
    unfold Index.forwardNotification, Index.forwardRevocation;
    rewrite (try_catch_logs _ _ e H); reflexivity.
Qed.

(** C7. A verified notification or revocation request with a supported
    body is answered with status 204 and no body. The answer is the same
    in every world that agrees on the inbound checks, whatever the token
    source, the platform reads and the delivery do. Exactly one piece of
    work is registered with [waitUntil]; run in any world, it never
    throws, and an error raised inside its [try] block is logged with
    [console.error] as its last action. *)
Theorem fetch_accepted_204 (w : World) (request : Request) (env : Env)
    (json : WebhookBody) (k : string) :
  verifyRequest w (TWITCH_CLIENT_SECRET env) request (body request) = Ok true ->
  JSON_parse w (body request) = Ok json ->
  isStreamOnlineBody w json = true ->
  Headers_get request RequestHeaders.MessageType = Some k ->
  k = NotificationType.Notification \/ k = NotificationType.Revocation ->
  result (Index.fetch w request env) = Ok {| Response.body := None; Response.status := 204 |}
  /\ (forall w', same_inbound w w' ->
        Index.fetch w' request env = Index.fetch w request env)
  /\ (exists t,
        Index.scheduled (log (Index.fetch w request env))
        = [if String.eqb k NotificationType.Notification
           then ForwardNotification env json t
           else ForwardRevocation env json])
  /\ (forall w' task,
        task ∈ Index.scheduled (log (Index.fetch w request env)) ->
        result (Index.run_task w' task) = Ok tt
        /\ forall e, result (Index.task_try w' task) = Throw e ->
             log (Index.run_task w' task)
             = log (Index.task_try w' task) ++ [ConsoleError e]).
Proof.
  intros Hv Hj Hs Hk Hkind.
  destruct (fetch_verified w request env json Hv Hj) as (t & l & _ & Hl & Hf).
  rewrite Hs in Hf. simpl in Hf.
  unfold Index.dispatch in Hf. rewrite Hk in Hf.
  split; [|split; [|split]].
  - unfold Index.fetch. rewrite Hf.
    destruct Hkind as [-> | ->]; reflexivity.
  - intros w' Hw. apply fetch_inbound_only, Hw.
  - exists t. unfold Index.fetch. rewrite Hf.
    destruct Hkind as [-> | ->]; simpl; rewrite !app_nil_r;
      unfold Index.scheduled; rewrite omap_app;
      fold (Index.scheduled l); rewrite (only_warnings_not_scheduled l Hl);
      reflexivity.
  - intros w' task _. split.
    + apply run_task_never_throws.
    + apply run_task_logs_error.
Qed.

Lemma fetch_accepted_204_witness :
  result (Index.fetch Sample.offline
            (Sample.request "sha256=good" (Some "revocation") "revoked") Sample.env)
  = Ok {| Response.body := None; Response.status := 204 |}.
Proof.
  refine (proj1 (fetch_accepted_204 Sample.offline _ Sample.env
                   (Sample.body_of "stream.online" "notification_failures_exceeded" None)
                   "revocation" _ _ _ _ _));
    try (vm_compute; reflexivity).
  right. reflexivity.
Defined.

(** ** The data aggregation *)

Section Aggregation.
Context (w : World) (env : Env) (b : WebhookBody).

Local Abbreviation clientId := (TWITCH_CLIENT_ID env).
Local Abbreviation broadcaster := (broadcaster_user_id (condition (subscription b))).
Local Abbreviation live :=
  {| StreamFilter.type := StreamFilterType.Live;
     StreamFilter.userIds := [broadcaster_user_id (condition (subscription b))] |}.

(** The token is acquired first; then the three reads are issued in
    array order, whatever they answer. *)
Lemma fetchEventSubStreamInfo_log (tok : string) :
  tokenResponse w clientId (TWITCH_CLIENT_SECRET env) = Ok tok ->
  log (Index.fetchEventSubStreamInfo w env b)
    = [Authorize clientId (TWITCH_CLIENT_SECRET env); GetStreams clientId tok live;
       GetChannels clientId tok [broadcaster]; GetUsers clientId tok [broadcaster]].
Proof.
  intros Ht.
  unfold Index.fetchEventSubStreamInfo, Twitch.authorize,
    Twitch.getStreams, Twitch.getChannels, Twitch.getUsers.
  rewrite Ht. simpl.
  destruct (streamsResponse w clientId tok live) as [ss|e1],
    (channelsResponse w clientId tok [broadcaster]) as [cs|e2],
    (usersResponse w clientId tok [broadcaster]) as [us|e3];
    simpl; try reflexivity.
  destruct ss as [|s ss], cs as [|c cs], us as [|u us]; reflexivity.
Qed.

(** C3. With no live stream, a channel record and a user record, the
    merged view has no [startedAt] and no [thumbnailUrl], the channel's
    delay, the user's avatar, and the channel's value in every other
    field. With a live stream, every field that has a fallback takes the
    stream's value instead. *)
Theorem fetchEventSubStreamInfo_merge (tok : string)
    (channel : Channel.t) (cs : list Channel.t) (user : User.t) (us : list User.t) :
  tokenResponse w clientId (TWITCH_CLIENT_SECRET env) = Ok tok ->
  channelsResponse w clientId tok [broadcaster] = Ok (channel :: cs) ->
  usersResponse w clientId tok [broadcaster] = Ok (user :: us) ->
  (streamsResponse w clientId tok live = Ok [] ->
   result (Index.fetchEventSubStreamInfo w env b) =
     Ok {| userId := Channel.broadcaster_id channel;
           userLogin := Channel.broadcaster_login channel;
           userName := Channel.broadcaster_name channel;
           userAvatarUrl := User.profile_image_url user;
           gameId := Channel.game_id channel;
           gameName := Channel.game_name channel;
           title := Channel.title channel;
           delay := Channel.delay channel;
           startedAt := None;
           language := Channel.broadcaster_language channel;
           thumbnailUrl := None |})
  /\ (forall stream ss,
        streamsResponse w clientId tok live = Ok (stream :: ss) ->
        exists info,
          result (Index.fetchEventSubStreamInfo w env b) = Ok info
          /\ userId info = Stream.user_id stream
          /\ userLogin info = Stream.user_login stream
          /\ userName info = Stream.user_name stream
          /\ gameId info = Stream.game_id stream
          /\ gameName info = Stream.game_name stream
          /\ title info = Stream.title stream
          /\ language info = Stream.language stream
          /\ delay info = Channel.delay channel
          /\ userAvatarUrl info = User.profile_image_url user).
Proof.
  intros Ht Hc Hu. split.
  - intros Hs.
    unfold Index.fetchEventSubStreamInfo, Twitch.authorize,
      Twitch.getStreams, Twitch.getChannels, Twitch.getUsers.
    rewrite Ht; simpl; rewrite Hs, Hc, Hu. reflexivity.
  - intros stream ss Hs.
    unfold Index.fetchEventSubStreamInfo, Twitch.authorize,
      Twitch.getStreams, Twitch.getChannels, Twitch.getUsers.
    rewrite Ht; simpl; rewrite Hs, Hc, Hu. simpl.
    eexists. split; [reflexivity|]. simpl. repeat split; reflexivity.
Qed.

(** C6, as the code has it. The user lookup is required: when it rejects
    while the stream and channel lookups succeed, the aggregation rejects
    with the same error; when it returns an empty collection, reading
    [profile_image_url] of the missing user throws a TypeError. Either
    way no merged view is produced. *)
Theorem fetchEventSubStreamInfo_user_required (tok : string)
    (ss : list Stream.t) (cs : list Channel.t) :
  tokenResponse w clientId (TWITCH_CLIENT_SECRET env) = Ok tok ->
  streamsResponse w clientId tok live = Ok ss ->
  channelsResponse w clientId tok [broadcaster] = Ok cs ->
  (forall e, usersResponse w clientId tok [broadcaster] = Throw e ->
     result (Index.fetchEventSubStreamInfo w env b) = Throw e)
  /\ (usersResponse w clientId tok [broadcaster] = Ok [] ->
      result (Index.fetchEventSubStreamInfo w env b) = Throw TypeError).
Proof.
  intros Ht Hs Hc. split.
  - intros e Hu.
    unfold Index.fetchEventSubStreamInfo, Twitch.authorize,
      Twitch.getStreams, Twitch.getChannels, Twitch.getUsers.
    rewrite Ht; simpl; rewrite Hs, Hc, Hu. reflexivity.
  - intros Hu.
    unfold Index.fetchEventSubStreamInfo, Twitch.authorize,
      Twitch.getStreams, Twitch.getChannels, Twitch.getUsers.
    rewrite Ht; simpl; rewrite Hs, Hc, Hu.
    destruct ss as [|s ss'], cs as [|c cs']; reflexivity.
Qed.

End Aggregation.

Lemma fetchEventSubStreamInfo_merge_witness :
  let b := Sample.body_of "stream.online" "enabled" None in
  result (Index.fetchEventSubStreamInfo Sample.offline Sample.env b) =
    Ok {| userId := "4242";
          userLogin := "streamer_login";
          userName := "Streamer_Name";
          userAvatarUrl := "https://img.example/avatar.png";
          gameId := "33214";
          gameName := "Fortnite";
          title := "channel title";
          delay := Fin 0;
          startedAt := None;
          language := "de";
          thumbnailUrl := None |}
  /\ exists info,
       result (Index.fetchEventSubStreamInfo Sample.online Sample.env b) = Ok info
       /\ userName info = "Streamer" /\ gameName info = "Just Chatting".
Proof.
  intros b. split.
  - apply (proj1 (fetchEventSubStreamInfo_merge Sample.offline Sample.env b "bearer"
                    Sample.channel [] Sample.user [] eq_refl eq_refl eq_refl)).
    reflexivity.
  - destruct (proj2 (fetchEventSubStreamInfo_merge Sample.online Sample.env b "bearer"
                       Sample.channel [] Sample.user [] eq_refl eq_refl eq_refl)
                Sample.stream [] eq_refl)
      as (info & Hr & _ & _ & Hn & _ & Hg & _).
    exists info. auto.
Defined.

Lemma fetchEventSubStreamInfo_user_required_witness :
  let b := Sample.body_of "stream.online" "enabled" None in
  result (Index.fetchEventSubStreamInfo Sample.users_rejected Sample.env b)
    = Throw (OtherError "users")
  /\ result (Index.fetchEventSubStreamInfo Sample.no_user Sample.env b)
    = Throw TypeError.
Proof.
  intros b. split.
  - apply (proj1 (fetchEventSubStreamInfo_user_required Sample.users_rejected Sample.env b
                    "bearer" [Sample.stream] [Sample.channel] eq_refl eq_refl eq_refl)).
    reflexivity.
  - apply (proj2 (fetchEventSubStreamInfo_user_required Sample.no_user Sample.env b
                    "bearer" [Sample.stream] [Sample.channel] eq_refl eq_refl eq_refl)).
    reflexivity.
Defined.

(** C6, as the specification has it, fails: the stream and channel
    lookups succeed, the user lookup returns an empty collection in one
    world and rejects in the other, and in neither does the aggregation
    yield a merged view. *)
Lemma fetchEventSubStreamInfo_not_best_effort :
  let b := Sample.body_of "stream.online" "enabled" None in
  let filter := {| StreamFilter.type := "live"; StreamFilter.userIds := ["4242"] |} in
  streamsResponse Sample.no_user "client" "bearer" filter = Ok [Sample.stream]
  /\ channelsResponse Sample.no_user "client" "bearer" ["4242"] = Ok [Sample.channel]
  /\ usersResponse Sample.no_user "client" "bearer" ["4242"] = Ok []
  /\ usersResponse Sample.users_rejected "client" "bearer" ["4242"]
       = Throw (OtherError "users")
  /\ ~ (exists info,
          result (Index.fetchEventSubStreamInfo Sample.no_user Sample.env b) = Ok info)
  /\ ~ (exists info,
          result (Index.fetchEventSubStreamInfo Sample.users_rejected Sample.env b) = Ok info).
Proof.
  repeat split; try reflexivity; intros (info & H); vm_compute in H; discriminate.
Qed.

(** ** The revocation path *)

(** With a token, a channel record and a resolvable webhook target, the
    revocation path acquires the token, looks the channel up and posts one
    message; the stream and user lookups are not issued. *)
Lemma forwardRevocation_log (w : World) (env : Env) (b : WebhookBody) (tok : string)
    (channel : Channel.t) (cs : list Channel.t) (webhook : WebhookData.t) :
  let ids := [broadcaster_user_id (condition (subscription b))] in
  tokenResponse w (TWITCH_CLIENT_ID env) (TWITCH_CLIENT_SECRET env) = Ok tok ->
  channelsResponse w (TWITCH_CLIENT_ID env) tok ids = Ok (channel :: cs) ->
  Discord.resolveWebhookOptions (Index.resolveWebhookEnvs env) = Some webhook ->
  log (Index.forwardRevocation_try w env b)
  = [Authorize (TWITCH_CLIENT_ID env) (TWITCH_CLIENT_SECRET env);
     GetChannels (TWITCH_CLIENT_ID env) tok ids;
     HttpPost (Discord.webhookUrl webhook)
       (Index.revocationMessage env (Channel.broadcaster_name channel)
          (JsString.replace "_" " " (status (subscription b))))].
Proof.
  intros ids Ht Hc Hw.
  unfold Index.forwardRevocation_try, Twitch.authorize, Twitch.getChannels,
    Discord.executeWebhook, Discord.http_post.
  rewrite Ht; simpl. fold ids. rewrite Hc; simpl. rewrite Hw; simpl.
  destruct (fetchStatus w _ _) as [st|e]; simpl; [|reflexivity].
  destruct (st =? 204); reflexivity.
Qed.

(** Whatever the world answers, the only platform read the revocation
    path can issue is the channel lookup. *)
Lemma forwardRevocation_api_calls (w : World) (env : Env) (b : WebhookBody) :
  Forall (fun ev => exists clientId tok ids, ev = GetChannels clientId tok ids)
    (List.filter Index.is_api_call (log (Index.forwardRevocation w env b))).
Proof.
  unfold Index.forwardRevocation, Index.forwardRevocation_try, Twitch.authorize,
    Twitch.getChannels, Discord.executeWebhook, Discord.http_post.
  destruct (tokenResponse w _ _) as [tok|e]; simpl; [|constructor].
  destruct (channelsResponse w _ _ _) as [[|c cs]|e]; simpl;
    try (repeat constructor; eauto; fail).
  destruct (Discord.resolveWebhookOptions _); simpl;
    try (repeat constructor; eauto; fail).
  destruct (fetchStatus w _ _) as [st|e]; simpl;
    try (repeat constructor; eauto; fail).
  destruct (st =? 204); simpl; repeat constructor; eauto.
Qed.

(** [replace] rewrites the first underscore only; it agrees with
    replacing every underscore exactly when at most one is present. *)
Lemma replace_first_underscore (s1 s2 : string) :
  JsString.includes "_" s1 = false ->
  JsString.replace "_" " " (s1 +:+ "_" +:+ s2) = s1 +:+ " " +:+ s2.
Proof.
  induction s1 as [|c s1 IH]; [reflexivity|].
  change (String c s1 +:+ "_" +:+ s2) with (String c (s1 +:+ "_" +:+ s2)).
  change (String c s1 +:+ " " +:+ s2) with (String c (s1 +:+ " " +:+ s2)).
  cbn [JsString.includes JsString.replace JsString.startsWith].
  rewrite andb_true_r.
  destruct (Ascii.eqb "_"%char c); cbn [orb]; intros H; [discriminate|].
  cbv iota. rewrite IH; [reflexivity|exact H].
Qed.

(** C9 at the status [notification_failures_exceeded]. The message that
    is posted names the channel and is the only delivery, and the channel
    lookup is the only platform read; but the status in it keeps its
    second underscore: it reads "notification failures_exceeded", and the
    status with its underscores replaced by spaces, "notification failures
    exceeded", does not occur in the message. *)
Theorem forwardRevocation_first_underscore_only :
  let b := Sample.body_of "stream.online" "notification_failures_exceeded" None in
  let run := Index.forwardRevocation Sample.online Sample.env b in
  result run = Ok tt
  /\ List.filter Index.is_api_call (log run) = [GetChannels "client" "bearer" ["4242"]]
  /\ (content <$> Index.posted (log run))
     = [Some "Subscription to channel **Streamer_Name** revoked: notification failures_exceeded"]
  /\ JsString.replaceAll_char "_" " " (status (subscription b))
     = "notification failures exceeded"
  /\ Forall (fun m => JsString.includes "notification failures exceeded"
                        (default "" (content m)) = false)
       (Index.posted (log run)).
Proof.
  vm_compute. repeat split. repeat constructor.
Qed.

(** ** Webhook target resolution and delivery *)

Lemma truthy_nonempty (s : string) : s <> "" -> JsString.truthy (Some s) = true.
Proof.
  intros H. unfold JsString.truthy. apply String.eqb_neq in H. rewrite H. reflexivity.
Qed.

(** A webhook URL of the documented shape resolves to its id and token. *)
Example resolveWebhookOptions_from_url :
  Discord.resolveWebhookOptions
    (WebhookOptions.mk None (Some "ignored")
       (Some ("https://canary.discord.com/api/v10/webhooks/12345678901234567/"
              +:+ Sample.token68)))
  = Some {| WebhookData.id := "12345678901234567"; WebhookData.token := Sample.token68 |}.
Proof. vm_compute. reflexivity. Qed.

(** C10. An explicit pair of a non-empty id and a non-empty token is the
    target, whatever the url field holds. When the id or the token is
    missing or empty, the target is what the URL pattern extracts from the
    url field (the empty string when there is none). When neither yields a
    target, [executeWebhook] throws a [WebhookError] and has issued no
    HTTP request. *)
Theorem resolveWebhookOptions_precedence :
  (forall (i t : string) (u : option string),
     i <> "" -> t <> "" ->
     Discord.resolveWebhookOptions (WebhookOptions.mk (Some i) (Some t) u)
     = Some {| WebhookData.id := i; WebhookData.token := t |})
  /\ (forall o : WebhookOptions.t,
        JsString.truthy (WebhookOptions.id o) && JsString.truthy (WebhookOptions.token o) = false ->
        Discord.resolveWebhookOptions o =
          match Discord.WebhookUrlPattern_exec (default "" (WebhookOptions.url o)) with
          | Some groups =>
              Some {| WebhookData.id := default "" (RegExp.group "id" groups);
                      WebhookData.token := default "" (RegExp.group "token" groups) |}
          | None => None
          end)
  /\ (forall (w : World) (o : WebhookOptions.t)
        (message : WebhookMessageWithoutAttachmentsBody),
        Discord.resolveWebhookOptions o = None ->
        Discord.executeWebhook w o message
        = (Throw (WebhookError "Failed to resolve webhook ID and token"), [])).
Proof.
  split; [|split].
  - intros i t u Hi Ht. unfold Discord.resolveWebhookOptions.
    cbn [WebhookOptions.id WebhookOptions.token]. rewrite (truthy_nonempty i Hi), (truthy_nonempty t Ht).
    reflexivity.
  - intros o H. unfold Discord.resolveWebhookOptions. rewrite H. reflexivity.
  - intros w o message H. unfold Discord.executeWebhook. rewrite H. reflexivity.
Qed.

Lemma resolveWebhookOptions_precedence_witness :
  let good := Some ("https://discord.com/api/webhooks/12345678901234567/" +:+ Sample.token68) in
  Discord.resolveWebhookOptions (WebhookOptions.mk (Some "1") (Some "t") good)
    = Some {| WebhookData.id := "1"; WebhookData.token := "t" |}
  /\ Discord.resolveWebhookOptions (WebhookOptions.mk (Some "") (Some "t") good)
    = Some {| WebhookData.id := "12345678901234567"; WebhookData.token := Sample.token68 |}
  /\ Discord.executeWebhook Sample.offline
       (WebhookOptions.mk None (Some "t") (Some "https://discord.com/"))
       Sample.message
    = (Throw (WebhookError "Failed to resolve webhook ID and token"), []).
Proof.
  intros good. split; [|split].
  - apply (proj1 resolveWebhookOptions_precedence); discriminate.
  - rewrite (proj1 (proj2 resolveWebhookOptions_precedence)
               (WebhookOptions.mk (Some "") (Some "t") good) eq_refl).
    vm_compute. reflexivity.
  - apply (proj2 (proj2 resolveWebhookOptions_precedence)).
    vm_compute. reflexivity.
Defined.

(** ** The token cache *)

Section SingleFlight.
Variable margin : Z.

Lemma run_app (st : TokenCache.State) (a b : list TokenCache.Input) :
  TokenCache.run margin st (a ++ b)
  = let '(st1, out1) := TokenCache.run margin st a in
    let '(st2, out2) := TokenCache.run margin st1 b in
    (st2, out1 ++ out2).
Proof.
  revert st. induction a as [|i a IH]; intros st; simpl.
  - destruct (TokenCache.run margin st b). reflexivity.
  - destruct (TokenCache.step margin st i) as [st1 out1].
    rewrite IH. destruct (TokenCache.run margin st1 a) as [st2 out2].
    destruct (TokenCache.run margin st2 b) as [st3 out3].
    rewrite app_assoc. reflexivity.
Qed.

(** Callers that find no valid token while a refresh is in flight queue
    up behind it, in arrival order, and nothing is sent or delivered. *)
Lemma run_calls_in_flight (calls : list (nat * Z)) (st : TokenCache.State)
    (ws : list nat) :
  TokenCache.waiters st = Some ws ->
  Forall (fun call => TokenCache.valid margin call.2 st = None) calls ->
  TokenCache.run margin st (map (fun call => TokenCache.Call call.1 call.2) calls)
  = ({| TokenCache.cached := TokenCache.cached st;
        TokenCache.waiters := Some (ws ++ calls.*1) |}, []).
Proof.
  revert st ws. induction calls as [|[c now] calls IH]; intros st ws Hw Hv.
  - simpl. rewrite app_nil_r. destruct st; simpl in *. subst. reflexivity.
  - inversion Hv as [|? ? Hc Hcs]; subst. simpl in Hc.
    cbn [map TokenCache.run TokenCache.step fst snd]. rewrite Hc, Hw.
    rewrite (IH _ (ws ++ [c])); [| reflexivity |].
    + simpl. rewrite <- app_assoc. reflexivity.
    + eapply Forall_impl; [exact Hcs|]. intros call H. exact H.
Qed.

(** The first caller that finds no valid token and no refresh in flight
    sends the one request. *)
Lemma run_calls_idle (calls : list (nat * Z)) (st : TokenCache.State) :
  TokenCache.waiters st = None ->
  calls <> [] ->
  Forall (fun call => TokenCache.valid margin call.2 st = None) calls ->
  TokenCache.run margin st (map (fun call => TokenCache.Call call.1 call.2) calls)
  = ({| TokenCache.cached := TokenCache.cached st;
        TokenCache.waiters := Some (calls.*1) |}, [TokenCache.TokenRequest]).
Proof.
  intros Hw Hne Hv. destruct calls as [|[c now] calls]; [congruence|].
  inversion Hv as [|? ? Hc Hcs]; subst. simpl in Hc.
  cbn [map TokenCache.run TokenCache.step fst snd]. rewrite Hc, Hw.
  rewrite (run_calls_in_flight calls _ [c]); [reflexivity|reflexivity|].
  eapply Forall_impl; [exact Hcs|]. intros call H. exact H.
Qed.

Lemma deliveries_map (r : Result string) (ws : list nat) :
  TokenCache.deliveries (map (fun c => TokenCache.Deliver c r) ws)
  = map (fun c => (c, r)) ws.
Proof. induction ws as [|c ws IH]; simpl; [reflexivity|]. f_equal. exact IH. Qed.

Lemma requests_map (r : Result string) (ws : list nat) :
  TokenCache.requests (map (fun c => TokenCache.Deliver c r) ws) = 0%nat.
Proof. unfold TokenCache.requests. induction ws as [|c ws IH]; simpl; [reflexivity|exact IH]. Qed.

Lemma settle_delivers (st : TokenCache.State) (ws : list nat) (now : Z)
    (answer : Result (string * Z)) :
  TokenCache.waiters st = Some ws ->
  snd (TokenCache.step margin st (TokenCache.Settle now answer))
  = map (fun c => TokenCache.Deliver c (TokenCache.outcome_of answer)) ws.
Proof.
  intros Hw. simpl. rewrite Hw. destruct answer as [[tok lifetime]|e]; reflexivity.
Qed.

End SingleFlight.

(** A valid cached token is handed over at once, without a request. *)
Lemma call_with_valid_token (margin : Z) (st : TokenCache.State) (c : nat) (now : Z)
    (tok : string) :
  TokenCache.valid margin now st = Some tok ->
  TokenCache.step margin st (TokenCache.Call c now)
  = (st, [TokenCache.Deliver c (Ok tok)]).
Proof. intros H. simpl. rewrite H. reflexivity. Qed.

(** A failed refresh stores nothing. *)
Lemma failed_refresh_stores_nothing (margin : Z) (st : TokenCache.State) (now : Z)
    (e : Exn) :
  TokenCache.cached (fst (TokenCache.step margin st (TokenCache.Settle now (Throw e))))
  = TokenCache.cached st.
Proof. simpl. destruct (TokenCache.waiters st); reflexivity. Qed.

(** C1. Take any state of the cache and any two or more invocations,
    each of which finds the token absent or expired, all arriving before
    the refresh is answered. Exactly one refresh serves them: when none is
    in flight, the first caller sends the one token request; when one is
    in flight already, they join it and no further request is sent. Until
    the answer arrives no caller is handed anything, and when it arrives
    every caller is handed the outcome of that one refresh. *)
Theorem single_flight (margin : Z) (st : TokenCache.State) (calls : list (nat * Z))
    (now : Z) (answer : Result (string * Z)) :
  Forall (fun call => TokenCache.valid margin call.2 st = None) calls ->
  (2 <= length calls)%nat ->
  let arrive := map (fun call => TokenCache.Call call.1 call.2) calls in
  let before := (TokenCache.run margin st arrive).2 in
  let out := (TokenCache.run margin st (arrive ++ [TokenCache.Settle now answer])).2 in
  (TokenCache.waiters st = None -> TokenCache.requests out = 1%nat)
  /\ (is_Some (TokenCache.waiters st) -> TokenCache.requests out = 0%nat)
  /\ TokenCache.deliveries before = []
  /\ TokenCache.deliveries out
     = map (fun c => (c, TokenCache.outcome_of answer))
         (default [] (TokenCache.waiters st) ++ calls.*1).
Proof.
  intros Hv Hn arrive before out.
  assert (Hne : calls <> []) by (destruct calls; simpl in Hn; [lia|discriminate]).
  subst before out. rewrite run_app.
  destruct (TokenCache.waiters st) as [ws|] eqn:Hw.
  - subst arrive. rewrite (run_calls_in_flight margin calls st ws Hw Hv).
    cbn [TokenCache.run].
    pose proof (settle_delivers margin
                  {| TokenCache.cached := TokenCache.cached st;
                     TokenCache.waiters := Some (ws ++ calls.*1) |}
                  (ws ++ calls.*1) now answer eq_refl) as Hs.
    destruct (TokenCache.step margin _ (TokenCache.Settle now answer)) as [st2 out2].
    simpl in Hs. subst out2. simpl. rewrite app_nil_r.
    split; [discriminate|]. split; [intros _; apply requests_map|].
    split; [reflexivity|]. apply deliveries_map.
  - subst arrive. rewrite (run_calls_idle margin calls st Hw Hne Hv).
    cbn [TokenCache.run].
    pose proof (settle_delivers margin
                  {| TokenCache.cached := TokenCache.cached st;
                     TokenCache.waiters := Some (calls.*1) |}
                  (calls.*1) now answer eq_refl) as Hs.
    destruct (TokenCache.step margin _ (TokenCache.Settle now answer)) as [st2 out2].
    simpl in Hs. subst out2. simpl. rewrite app_nil_r.
    split.
    { intros _. unfold TokenCache.requests. simpl.
      f_equal. apply requests_map. }
    split; [intros [? H]; discriminate|].
    split; [reflexivity|]. apply deliveries_map.
Qed.

Lemma single_flight_witness :
  let out :=
    (TokenCache.run 5 Sample.expired
       (map (fun call => TokenCache.Call call.1 call.2) Sample.callers
        ++ [TokenCache.Settle 2100 (Ok ("fresh", 3600))])).2 in
  TokenCache.requests out = 1%nat
  /\ TokenCache.deliveries out
     = [(1%nat, Ok "fresh"); (2%nat, Ok "fresh"); (3%nat, Ok "fresh")].
Proof.
  pose proof (single_flight 5 Sample.expired Sample.callers 2100 (Ok ("fresh", 3600))) as H.
  destruct H as (H1 & _ & _ & H4).
  - repeat constructor.
  - simpl. lia.
  - split; [apply H1; reflexivity|exact H4].
Defined.

(** * Further properties of the code *)

(** ** The handler as a whole *)

Lemma resolveTimestamp_value (w : World) (request : Request) (env : Env) :
  exists l,
    Index.resolveTimestamp w request env = (Ok (timestamp_of w request), l)
    /\ only_warnings l.
Proof.
  unfold Index.resolveTimestamp, timestamp_of.
  destruct (JsString.truthy _).
  - destruct (checkAge_total w env
                (Date_getTime w (default "" (requestHeader w request RequestHeaders.MessageTimestamp)))
                (default "" (requestHeader w request RequestHeaders.MessageTimestamp)))
      as (l & -> & Hl).
    exists (l ++ []). split; [reflexivity|]. rewrite app_nil_r. exact Hl.
  - exists []. split; [reflexivity|]. constructor.
Qed.

Lemma dispatch_cases (request : Request) (env : Env) (json : WebhookBody) (t : Num) :
  Index.dispatch request env json t =
  match Headers_get request RequestHeaders.MessageType with
  | Some k =>
      if String.eqb k NotificationType.Notification then
        (Ok (Some {| Response.body := None; Response.status := 204 |}),
         [WaitUntil (ForwardNotification env json t)])
      else if String.eqb k NotificationType.WebhookCallbackVerification then
        (Ok (Some {| Response.body := challenge json; Response.status := 200 |}), [])
      else if String.eqb k NotificationType.Revocation then
        (Ok (Some {| Response.body := None; Response.status := 204 |}),
         [WaitUntil (ForwardRevocation env json)])
      else (Ok None, [])
  | None => (Ok None, [])
  end.
Proof.
  unfold Index.dispatch.
  destruct (Headers_get request RequestHeaders.MessageType) as [k|]; [|reflexivity].
  destruct (String.eqb k NotificationType.Notification); [reflexivity|].
  destruct (String.eqb k NotificationType.WebhookCallbackVerification); [reflexivity|].
  destruct (String.eqb k NotificationType.Revocation); reflexivity.
Qed.

(** The handler, step by step: what [fetch] returns and logs in each of
    its five exits. *)
Lemma fetch_run (w : World) (request : Request) (env : Env) :
  exists l, only_warnings l /\
  Index.fetch w request env =
  match verifyRequest w (TWITCH_CLIENT_SECRET env) request (body request) with
  | Throw e => (Ok {| Response.body := None; Response.status := 400 |}, [ConsoleError e])
  | Ok false => (Ok {| Response.body := None; Response.status := 401 |}, [])
  | Ok true =>
      match JSON_parse w (body request) with
      | Throw e =>
          (Ok {| Response.body := None; Response.status := 400 |}, l ++ [ConsoleError e])
      | Ok json =>
          if negb (isStreamOnlineBody w json)
          then (Ok {| Response.body := None; Response.status := 403 |}, l)
          else
            let d := Index.dispatch request env json (timestamp_of w request) in
            (Ok (default {| Response.body := None; Response.status := 400 |}
                   (match result d with Ok r => r | Throw _ => None end)),
             l ++ log d)
      end
  end.
Proof.
  destruct (resolveTimestamp_value w request env) as (l & Ht & Hl).
  exists l. split; [exact Hl|].
  unfold Index.fetch, Index.fetch_try.
  destruct (verifyRequest w _ request _) as [[|]|e]; try reflexivity.
  simpl. rewrite Ht, bind_ok.
  destruct (JSON_parse w (body request)) as [json|e]; simpl.
  - destruct (isStreamOnlineBody w json); simpl.
    + rewrite dispatch_cases.
      destruct (Headers_get request RequestHeaders.MessageType) as [k|];
        [|simpl; rewrite !app_nil_r; reflexivity].
      destruct (String.eqb k NotificationType.Notification);
        [simpl; rewrite !app_nil_r; reflexivity|].
      destruct (String.eqb k NotificationType.WebhookCallbackVerification);
        [simpl; rewrite !app_nil_r; reflexivity|].
      destruct (String.eqb k NotificationType.Revocation);
        simpl; rewrite !app_nil_r; reflexivity.
    + rewrite !app_nil_r. reflexivity.
  - rewrite !app_nil_r. reflexivity.
Qed.

Lemma fetch_table (w : World) (request : Request) (env : Env) :
  result (Index.fetch w request env) = Ok (response_table w request env).
Proof.
  destruct (fetch_run w request env) as (l & _ & ->).
  unfold response_table.
  destruct (verifyRequest w _ request _) as [[|]|e]; try reflexivity.
  destruct (JSON_parse w (body request)) as [json|e]; [|reflexivity].
  destruct (isStreamOnlineBody w json); [|reflexivity].
  cbn [negb]. rewrite dispatch_cases.
  destruct (Headers_get request RequestHeaders.MessageType) as [k|]; [|reflexivity].
  destruct (String.eqb k NotificationType.Notification); [reflexivity|].
  destruct (String.eqb k NotificationType.WebhookCallbackVerification); [reflexivity|].
  destruct (String.eqb k NotificationType.Revocation); reflexivity.
Qed.

(** X1. The handler never throws: whatever the request and whatever the
    collaborators do, it returns a response whose status is one of 200,
    204, 400, 401 and 403, and only a 200 response can carry a body. *)
Theorem fetch_never_throws (w : World) (request : Request) (env : Env) :
  exists response,
    result (Index.fetch w request env) = Ok response
    /\ In (Response.status response) [200; 204; 400; 401; 403]
    /\ (Response.status response <> 200 -> Response.body response = None).
Proof.
  exists (response_table w request env). split; [apply fetch_table|].
  unfold response_table.
  destruct (verifyRequest w _ request _) as [[|]|e]; simpl; try (split; [tauto|reflexivity]).
  destruct (JSON_parse w (body request)) as [json|e]; simpl;
    try (split; [tauto|reflexivity]).
  destruct (isStreamOnlineBody w json); simpl; try (split; [tauto|reflexivity]).
  destruct (Headers_get request RequestHeaders.MessageType) as [k|]; simpl;
    try (split; [tauto|reflexivity]).
  destruct (String.eqb k NotificationType.Notification); simpl;
    try (split; [tauto|reflexivity]).
  destruct (String.eqb k NotificationType.WebhookCallbackVerification); simpl;
    [split; [tauto|congruence]|].
  destruct (String.eqb k NotificationType.Revocation); simpl;
    split; (tauto || reflexivity).
Qed.

(** X2. An exception thrown by the signature check, or by the parser on
    a verified request, is caught: the answer is status 400 with no body,
    the error is the last thing logged with [console.error], and nothing
    is handed to [waitUntil]. *)
Theorem fetch_exception_400 (w : World) (request : Request) (env : Env) (e : Exn) :
  verifyRequest w (TWITCH_CLIENT_SECRET env) request (body request) = Throw e
  \/ (verifyRequest w (TWITCH_CLIENT_SECRET env) request (body request) = Ok true
      /\ JSON_parse w (body request) = Throw e) ->
  result (Index.fetch w request env) = Ok {| Response.body := None; Response.status := 400 |}
  /\ last (log (Index.fetch w request env)) = Some (ConsoleError e)
  /\ List.filter Index.is_downstream (log (Index.fetch w request env)) = [].
Proof.
  intros H. destruct (fetch_run w request env) as (l & Hl & ->).
  destruct H as [-> | [-> ->]].
  - repeat split.
  - split; [reflexivity|]. split.
    + simpl. apply last_snoc.
    + simpl. rewrite List.filter_app, (only_warnings_not_downstream l Hl). reflexivity.
Qed.

Lemma fetch_exception_400_witness :
  let request := Sample.request "sha256=good" (Some "notification") "not json" in
  result (Index.fetch Sample.offline request Sample.env)
    = Ok {| Response.body := None; Response.status := 400 |}
  /\ last (log (Index.fetch Sample.offline request Sample.env))
     = Some (ConsoleError SyntaxError)
  /\ List.filter Index.is_downstream (log (Index.fetch Sample.offline request Sample.env)) = [].
Proof.
  apply fetch_exception_400. right. split; vm_compute; reflexivity.
Defined.

(** X3. Downstream work is registered only for a request that passed
    the signature check, parsed, has a supported body and is a
    notification or a revocation; and then it is exactly one task. No
    other request causes any token, platform or delivery action. *)
Theorem downstream_only_when_accepted (w : World) (request : Request) (env : Env) :
  List.filter Index.is_downstream (log (Index.fetch w request env)) <> [] ->
  verifyRequest w (TWITCH_CLIENT_SECRET env) request (body request) = Ok true
  /\ exists json,
       JSON_parse w (body request) = Ok json
       /\ isStreamOnlineBody w json = true
       /\ ((Headers_get request RequestHeaders.MessageType
              = Some NotificationType.Notification
            /\ List.filter Index.is_downstream (log (Index.fetch w request env))
               = [WaitUntil (ForwardNotification env json (timestamp_of w request))])
           \/ (Headers_get request RequestHeaders.MessageType
                 = Some NotificationType.Revocation
               /\ List.filter Index.is_downstream (log (Index.fetch w request env))
                  = [WaitUntil (ForwardRevocation env json)])).
Proof.
  destruct (fetch_run w request env) as (l & Hl & ->).
  pose proof (only_warnings_not_downstream l Hl) as Hd.
  destruct (verifyRequest w _ request _) as [[|]|e]; simpl; try congruence.
  destruct (JSON_parse w (body request)) as [json|e]; simpl.
  2:{ rewrite List.filter_app, Hd. simpl. congruence. }
  destruct (isStreamOnlineBody w json) eqn:Hs; simpl; [|congruence].
  rewrite dispatch_cases.
  destruct (Headers_get request RequestHeaders.MessageType) as [k|];
    [|simpl; rewrite app_nil_r; congruence].
  destruct (String.eqb k NotificationType.Notification) eqn:E1.
  { apply String.eqb_eq in E1. subst k. simpl.
    rewrite List.filter_app, Hd. simpl. intros _.
    split; [reflexivity|]. exists json.
    split; [reflexivity|]. split; [exact Hs|]. left. split; reflexivity. }
  destruct (String.eqb k NotificationType.WebhookCallbackVerification);
    [simpl; rewrite app_nil_r; congruence|].
  destruct (String.eqb k NotificationType.Revocation) eqn:E3;
    [|simpl; rewrite app_nil_r; congruence].
  apply String.eqb_eq in E3. subst k. simpl.
  rewrite List.filter_app, Hd. simpl. intros _.
  split; [reflexivity|]. exists json.
  split; [reflexivity|]. split; [exact Hs|]. right. split; reflexivity.
Qed.

Lemma downstream_only_when_accepted_witness :
  verifyRequest Sample.offline "secret"
    (Sample.request "sha256=good" (Some "revocation") "revoked") "revoked" = Ok true.
Proof.
  refine (proj1 (downstream_only_when_accepted Sample.offline
                   (Sample.request "sha256=good" (Some "revocation") "revoked")
                   Sample.env _)).
  vm_compute. discriminate.
Defined.

(** X4. Staleness is advisory. The answer depends on the signature
    check, the parser and the body check only: two worlds that agree on
    these give the same response, whatever their clocks, their timestamp
    parsing and the age threshold say. *)
Theorem response_ignores_clock (w w' : World) (request : Request) (env : Env) :
  verifyRequest w = verifyRequest w' ->
  JSON_parse w = JSON_parse w' ->
  isStreamOnlineBody w = isStreamOnlineBody w' ->
  result (Index.fetch w request env) = result (Index.fetch w' request env).
Proof.
  intros Hv Hj Hs. rewrite !fetch_table. unfold response_table.
  rewrite Hv, Hj, Hs. reflexivity.
Qed.

(** Here the second world receives the request ten minutes late: it logs
    the age warning, and answers as the first. *)
Lemma response_ignores_clock_witness :
  let request := Sample2.stamped "notification" "online" in
  result (Index.fetch Sample.offline request Sample.env)
    = result (Index.fetch Sample2.late request Sample.env)
  /\ log (Index.fetch Sample.offline request Sample.env)
     <> log (Index.fetch Sample2.late request Sample.env).
Proof.
  split.
  - apply response_ignores_clock; reflexivity.
  - vm_compute. discriminate.
Defined.

(** X5. The timestamp handed to [forwardNotification] is the time of
    the message-timestamp header when that header is present and not
    empty, and the time of receipt otherwise. *)
Theorem notification_timestamp (w : World) (request : Request) (env : Env)
    (json : WebhookBody) :
  verifyRequest w (TWITCH_CLIENT_SECRET env) request (body request) = Ok true ->
  JSON_parse w (body request) = Ok json ->
  isStreamOnlineBody w json = true ->
  Headers_get request RequestHeaders.MessageType = Some NotificationType.Notification ->
  Index.scheduled (log (Index.fetch w request env))
  = [ForwardNotification env json
       (match requestHeader w request RequestHeaders.MessageTimestamp with
        | Some raw => if String.eqb raw "" then Fin (Date_now w) else Date_getTime w raw
        | None => Fin (Date_now w)
        end)].
Proof.
  intros Hv Hj Hs Hk.
  destruct (fetch_run w request env) as (l & Hl & ->).
  rewrite Hv, Hj, Hs. simpl. rewrite dispatch_cases, Hk. simpl.
  unfold Index.scheduled. rewrite omap_app. fold (Index.scheduled l).
  rewrite (only_warnings_not_scheduled l Hl). simpl.
  unfold timestamp_of, JsString.truthy.
  destruct (requestHeader w request RequestHeaders.MessageTimestamp) as [raw|];
    [|reflexivity].
  destruct (String.eqb raw ""); reflexivity.
Qed.

Lemma notification_timestamp_witness :
  Index.scheduled
    (log (Index.fetch Sample2.late (Sample2.stamped "notification" "online") Sample.env))
  = [ForwardNotification Sample.env (Sample.body_of "stream.online" "enabled" None)
       (Fin 1704067200000)].
Proof.
  rewrite (notification_timestamp Sample2.late (Sample2.stamped "notification" "online")
             Sample.env (Sample.body_of "stream.online" "enabled" None));
    vm_compute; reflexivity.
Defined.

(** X6. [checkAge] never throws, and it warns exactly when the timestamp
    is a valid time, the threshold is a number, and the age exceeds the
    threshold. The threshold is 300000 ms unless TWITCH_AGE_WARNING is set
    and not empty. So a timestamp that does not parse, or a threshold that
    is not a number, silences the warning. *)
Theorem checkAge_warns (w : World) (env : Env) (timestamp : Num) (raw : string) :
  result (Index.checkAge w env timestamp raw) = Ok tt
  /\ (TWITCH_AGE_WARNING env = None \/ TWITCH_AGE_WARNING env = Some "" ->
      age_threshold w env = Fin 300000)
  /\ (log (Index.checkAge w env timestamp raw) <> [] <->
      exists t th,
        timestamp = Fin t /\ age_threshold w env = Fin th /\ Date_now w - t > th)
  /\ (log (Index.checkAge w env timestamp raw) <> [] ->
      log (Index.checkAge w env timestamp raw)
      = [ConsoleWarn (Date_now w) (age_threshold w env) raw]).
Proof.
  unfold Index.checkAge. fold (age_threshold w env).
  split; [destruct (num_gt _ _); reflexivity|].
  split.
  { unfold age_threshold. intros [-> | ->]; reflexivity. }
  destruct timestamp as [|t]; simpl.
  { split; [|congruence]. split; [congruence|]. intros (t & th & H & _). discriminate. }
  destruct (age_threshold w env) as [|th]; simpl.
  { split; [|congruence]. split; [congruence|]. intros (t' & th & _ & H & _). discriminate. }
  destruct (Z.gtb_spec (Date_now w - t) th) as [Hgt|Hle]; simpl.
  - split; [|reflexivity]. split; [|congruence].
    intros _. exists t, th. repeat split. lia.
  - split; [|congruence]. split; [congruence|].
    intros (t' & th' & Ht & Hth & Hgt). injection Ht as <-. injection Hth as <-. lia.
Qed.

(** ** Delivery *)

(** X7. Once the target is resolved, [executeWebhook] issues exactly one
    POST, to the canonical endpoint of version 10 on discord.com whatever
    host or version the configured URL named, with the message as given.
    It succeeds exactly when the response status is 204; any other status
    is thrown as a [FetchError], and a failure of the request itself is
    passed on. *)
Theorem executeWebhook_posts_once (w : World) (o : WebhookOptions.t)
    (message : WebhookMessageWithoutAttachmentsBody) (webhook : WebhookData.t) :
  Discord.resolveWebhookOptions o = Some webhook ->
  let u := "https://discord.com/api/v10/webhooks/" +:+ WebhookData.id webhook
           +:+ "/" +:+ WebhookData.token webhook in
  log (Discord.executeWebhook w o message) = [HttpPost u message]
  /\ (result (Discord.executeWebhook w o message) = Ok tt <->
      fetchStatus w u message = Ok 204)
  /\ (forall st, fetchStatus w u message = Ok st -> st <> 204 ->
        result (Discord.executeWebhook w o message) = Throw (FetchError st))
  /\ (forall e, fetchStatus w u message = Throw e ->
        result (Discord.executeWebhook w o message) = Throw e).
Proof.
  intros Hr u.
  unfold Discord.executeWebhook, Discord.http_post. rewrite Hr.
  change (Discord.webhookUrl webhook) with u. simpl.
  destruct (fetchStatus w u message) as [st|e]; simpl.
  - destruct (Z.eqb_spec st 204) as [->|Hne]; simpl.
    + repeat split; try reflexivity; try congruence.
    + split; [reflexivity|]. split; [split; congruence|].
      split; [|congruence]. intros st' H _. injection H as <-. reflexivity.
  - split; [reflexivity|]. split; [split; congruence|].
    split; [congruence|]. intros e' H. injection H as <-. reflexivity.
Qed.

Lemma executeWebhook_posts_once_witness :
  log (Discord.executeWebhook Sample2.refused
         (WebhookOptions.mk (Some "1") (Some "t") None) Sample.message)
  = [HttpPost "https://discord.com/api/v10/webhooks/1/t" Sample.message].
Proof.
  refine (proj1 (executeWebhook_posts_once Sample2.refused
                   (WebhookOptions.mk (Some "1") (Some "t") None) Sample.message
                   {| WebhookData.id := "1"; WebhookData.token := "t" |} _)).
  reflexivity.
Defined.

(** ** The webhook URL pattern *)

Lemma append_empty_r (s : string) : s +:+ "" = s.
Proof.
  induction s as [|c s IH]; [reflexivity|].
  change (String c s +:+ "") with (String c (s +:+ "")). f_equal. exact IH.
Qed.

Lemma length_append (s1 s2 : string) :
  String.length (s1 +:+ s2) = (String.length s1 + String.length s2)%nat.
Proof.
  induction s1 as [|c s1 IH]; [reflexivity|].
  change (String c s1 +:+ s2) with (String c (s1 +:+ s2)). simpl. f_equal. exact IH.
Qed.

Lemma take_append (d rest : string) : RegExp.take (String.length d) (d +:+ rest) = d.
Proof.
  induction d as [|c d IH]; [destruct rest; reflexivity|].
  change (String c d +:+ rest) with (String c (d +:+ rest)). simpl. f_equal. exact IH.
Qed.

(** The text a group consumed is what was cut off in front. *)
Lemma consumed_append (d rest : string) : RegExp.consumed (d +:+ rest) rest = d.
Proof.
  unfold RegExp.consumed. rewrite length_append.
  replace (String.length d + String.length rest - String.length rest)%nat
    with (String.length d) by lia.
  apply take_append.
Qed.

Section Matcher.
Context {A : Type} (ci : bool).
Implicit Types (k : string -> RegExp.captures -> option A).

(** The three equations of a bounded repetition. *)
Lemma run_rep_required r m e s c k :
  RegExp.run ci (RegExp.Rep r (S m) e) s c k
  = RegExp.run ci r s c (fun s1 c1 => RegExp.run ci (RegExp.Rep r m e) s1 c1 k).
Proof. reflexivity. Qed.

Lemma run_rep_optional r e s c k :
  RegExp.run ci (RegExp.Rep r 0 (S e)) s c k
  = match RegExp.run ci r s c (fun s1 c1 => RegExp.run ci (RegExp.Rep r 0 e) s1 c1 k) with
    | Some a => Some a
    | None => k s c
    end.
Proof. reflexivity. Qed.

Lemma run_rep_done r s c k : RegExp.run ci (RegExp.Rep r 0 0) s c k = k s c.
Proof. reflexivity. Qed.

Lemma run_class p x s c k :
  RegExp.run ci (RegExp.Class p) (String x s) c k = if p x then k s c else None.
Proof. reflexivity. Qed.

(** A greedy repetition of a class takes a run of class characters that
    is as long as allowed, or is followed by a character outside the
    class, when the rest of the match succeeds from there. *)
Lemma rep_class_match p d :
  forall min extra rest c k a,
    all_chars p d = true ->
    (min <= String.length d <= min + extra)%nat ->
    String.length d = (min + extra)%nat \/ stops p rest ->
    k rest c = Some a ->
    RegExp.run ci (RegExp.Rep (RegExp.Class p) min extra) (d +:+ rest) c k = Some a.
Proof.
  induction d as [|x d IH]; intros min extra rest c k a Hall Hlen Hstop Hk.
  - simpl in Hlen. assert (min = 0%nat) as -> by lia.
    destruct extra as [|e]; [rewrite run_rep_done; exact Hk|].
    rewrite run_rep_optional. change ("" +:+ rest) with rest.
    destruct Hstop as [Hl|Hs]; [simpl in Hl; lia|].
    destruct rest as [|y rest]; [exact Hk|].
    rewrite run_class. simpl in Hs. rewrite Hs. exact Hk.
  - simpl in Hall. apply andb_true_iff in Hall as [Hx Hd]. simpl in Hlen.
    change (String x d +:+ rest) with (String x (d +:+ rest)).
    destruct min as [|m].
    + destruct extra as [|e]; [lia|].
      rewrite run_rep_optional, run_class, Hx.
      rewrite (IH 0%nat e rest c k a Hd); [reflexivity|lia| |exact Hk].
      destruct Hstop as [Hl|Hs]; [left; simpl in Hl; lia|right; exact Hs].
    + rewrite run_rep_required, run_class, Hx.
      apply IH; [exact Hd|lia| |exact Hk].
      destruct Hstop as [Hl|Hs]; [left; simpl in Hl; lia|right; exact Hs].
Qed.

(** Conversely, whatever a repetition of a class matched is a run of
    class characters of an allowed length. *)
Lemma rep_class_sound p :
  forall min extra s c k a,
    RegExp.run ci (RegExp.Rep (RegExp.Class p) min extra) s c k = Some a ->
    exists d rest,
      s = d +:+ rest /\ all_chars p d = true
      /\ (min <= String.length d <= min + extra)%nat
      /\ k rest c = Some a.
Proof.
  induction min as [|m IHm].
  - induction extra as [|e IHe]; intros s c k a H.
    + rewrite run_rep_done in H. exists "", s. repeat split; simpl; auto.
    + rewrite run_rep_optional in H.
      destruct s as [|x s].
      * simpl in H. exists "", "". repeat split; simpl; auto; lia.
      * rewrite run_class in H. destruct (p x) eqn:Hx.
        -- destruct (RegExp.run ci (RegExp.Rep (RegExp.Class p) 0 e) s c k) as [a'|] eqn:Hr.
           ++ injection H as <-.
              destruct (IHe s c k a' Hr) as (d & rest & -> & Hd & Hl & Hk).
              exists (String x d), rest. simpl. rewrite Hx, Hd.
              repeat split; auto; lia.
           ++ exists "", (String x s). repeat split; simpl; auto; lia.
        -- exists "", (String x s). repeat split; simpl; auto; lia.
  - intros extra s c k a H. rewrite run_rep_required in H.
    destruct s as [|x s]; [discriminate|].
    rewrite run_class in H. destruct (p x) eqn:Hx; [|discriminate].
    destruct (IHm extra s c k a H) as (d & rest & -> & Hd & Hl & Hk).
    exists (String x d), rest. simpl. rewrite Hx, Hd.
    repeat split; auto; lia.
Qed.

(** A regular expression without groups leaves the captures alone. *)
Lemma run_no_groups r :
  no_groups r = true ->
  forall s c k a, RegExp.run ci r s c k = Some a -> exists s', k s' c = Some a.
Proof.
  induction r as [x|p|r1 IH1 r2 IH2|r1 IH1 r2 IH2|r IH m e|n r IH|];
    cbn [no_groups]; intros Hg.
  - intros s c k a H. destruct s as [|y s]; [discriminate|].
    simpl in H. destruct (RegExp.chr_eq ci x y); [eauto|discriminate].
  - intros s c k a H. destruct s as [|y s]; [discriminate|].
    simpl in H. destruct (p y); [eauto|discriminate].
  - apply andb_true_iff in Hg as [G1 G2]. intros s c k a H. simpl in H.
    destruct (IH1 G1 _ _ _ _ H) as (s1 & H1). exact (IH2 G2 _ _ _ _ H1).
  - apply andb_true_iff in Hg as [G1 G2]. intros s c k a H. simpl in H.
    destruct (RegExp.run ci r1 s c k) as [a'|] eqn:E.
    + injection H as <-. exact (IH1 G1 _ _ _ _ E).
    + exact (IH2 G2 _ _ _ _ H).
  - specialize (IH Hg). induction m as [|m IHm].
    + induction e as [|e IHe]; intros s c k a H.
      * rewrite run_rep_done in H. eauto.
      * rewrite run_rep_optional in H.
        destruct (RegExp.run ci r s c _) as [a'|] eqn:E.
        -- injection H as <-. destruct (IH _ _ _ _ E) as (s1 & H1). exact (IHe _ _ _ _ H1).
        -- eauto.
    + intros s c k a H. rewrite run_rep_required in H.
      destruct (IH _ _ _ _ H) as (s1 & H1). exact (IHm _ _ _ _ H1).
  - discriminate.
  - intros s c k a H. simpl in H. eauto.
Qed.

End Matcher.

Lemma exec_first (ci : bool) (r : RegExp.t) (s : string) (caps : RegExp.captures) :
  RegExp.run ci r s [] (fun _ c => Some c) = Some caps ->
  RegExp.exec ci r s = Some caps.
Proof. intros H. destruct s; simpl; rewrite H; reflexivity. Qed.

Lemma exec_sound (ci : bool) (r : RegExp.t) (s : string) (caps : RegExp.captures) :
  RegExp.exec ci r s = Some caps ->
  exists s', RegExp.run ci r s' [] (fun _ c => Some c) = Some caps.
Proof.
  induction s as [|x s IH]; simpl.
  - destruct (RegExp.run ci r "" [] _) as [c|] eqn:E; [|discriminate].
    intros H. injection H as <-. eauto.
  - destruct (RegExp.run ci r (String x s) [] _) as [c|] eqn:E.
    + intros H. injection H as <-. eauto.
    + exact IH.
Qed.

(** The pattern is a prefix without groups, then the id, a slash and the
    token. *)
Lemma pattern_split {A} (s : string) (c : RegExp.captures)
    (k : string -> RegExp.captures -> option A) :
  RegExp.run true Discord.WebhookUrlPattern s c k
  = RegExp.run true
      (Discord.seqs [
         RegExp.lit "http"; RegExp.opt (RegExp.Chr "s"); RegExp.lit "://";
         RegExp.opt (RegExp.Alt (RegExp.lit "ptb.") (RegExp.lit "canary."));
         RegExp.lit "discord.com/api";
         RegExp.opt (RegExp.Seq (RegExp.lit "/v")
                       (RegExp.Rep (RegExp.Class RegExp.is_digit) 1 1));
         RegExp.lit "/webhooks/"])
      s c
      (fun s1 c1 =>
         RegExp.run true
           (RegExp.Group "id" (RegExp.Rep (RegExp.Class RegExp.is_digit) 17 2)) s1 c1
           (fun s2 c2 =>
              RegExp.run true (RegExp.Chr "/") s2 c2
                (fun s3 c3 =>
                   RegExp.run true
                     (RegExp.Group "token"
                        (RegExp.Rep (RegExp.Class Discord.word_or_dash) 68 0))
                     s3 c3 k))).
Proof. reflexivity. Qed.

(** The prefix accepts the endpoint that [webhookUrl] builds. *)
Lemma prefix_canonical {A} (s : string) (k : string -> RegExp.captures -> option A) :
  RegExp.run true
    (Discord.seqs [
       RegExp.lit "http"; RegExp.opt (RegExp.Chr "s"); RegExp.lit "://";
       RegExp.opt (RegExp.Alt (RegExp.lit "ptb.") (RegExp.lit "canary."));
       RegExp.lit "discord.com/api";
       RegExp.opt (RegExp.Seq (RegExp.lit "/v")
                     (RegExp.Rep (RegExp.Class RegExp.is_digit) 1 1));
       RegExp.lit "/webhooks/"])
    ("https://discord.com/api/v10/webhooks/" +:+ s) [] k
  = k s [].
Proof. vm_compute. destruct (k s []); reflexivity. Qed.

Lemma group_rep_class_match {A} (ci : bool) (name : string) (p : ascii -> bool)
    (min extra : nat) (d rest : string) (c : RegExp.captures)
    (k : string -> RegExp.captures -> option A) (a : A) :
  all_chars p d = true ->
  (min <= String.length d <= min + extra)%nat ->
  String.length d = (min + extra)%nat \/ stops p rest ->
  k rest ((name, d) :: c) = Some a ->
  RegExp.run ci (RegExp.Group name (RegExp.Rep (RegExp.Class p) min extra))
    (d +:+ rest) c k = Some a.
Proof.
  intros Hall Hlen Hstop Hk.
  change (RegExp.run ci (RegExp.Rep (RegExp.Class p) min extra) (d +:+ rest) c
            (fun s1 c1 => k s1 ((name, RegExp.consumed (d +:+ rest) s1) :: c1)) = Some a).
  apply rep_class_match; auto. rewrite consumed_append. exact Hk.
Qed.

Lemma group_rep_class_sound {A} (ci : bool) (name : string) (p : ascii -> bool)
    (min extra : nat) (s : string) (c : RegExp.captures)
    (k : string -> RegExp.captures -> option A) (a : A) :
  RegExp.run ci (RegExp.Group name (RegExp.Rep (RegExp.Class p) min extra)) s c k = Some a ->
  exists d rest,
    all_chars p d = true /\ (min <= String.length d <= min + extra)%nat
    /\ k rest ((name, d) :: c) = Some a.
Proof.
  intros H.
  change (RegExp.run ci (RegExp.Rep (RegExp.Class p) min extra) s c
            (fun s1 c1 => k s1 ((name, RegExp.consumed s s1) :: c1)) = Some a) in H.
  apply rep_class_sound in H as (d & rest & -> & Hd & Hl & Hk).
  rewrite consumed_append in Hk. eauto 6.
Qed.

(** X8. Round trip. The endpoint that [webhookUrl] builds for a target
    of the documented shape (an id of 17 to 19 digits, a token of 68 word
    characters or dashes) resolves back to that very target, when no
    explicit pair takes precedence. *)
Theorem resolve_webhookUrl_roundtrip (webhook : WebhookData.t)
    (i t : option string) :
  well_formed webhook ->
  JsString.truthy i && JsString.truthy t = false ->
  Discord.resolveWebhookOptions
    (WebhookOptions.mk i t (Some (Discord.webhookUrl webhook)))
  = Some webhook.
Proof.
  intros (Hid & Hidlen & Htok & Htoklen) Hpair.
  destruct webhook as [wid wtok]. simpl in *.
  unfold Discord.resolveWebhookOptions. cbn [WebhookOptions.id WebhookOptions.token
    WebhookOptions.url]. rewrite Hpair. cbn [default from_option id].
  unfold Discord.WebhookUrlPattern_exec.
  rewrite (exec_first true _ _ [("token", wtok); ("id", wid)]); [reflexivity|].
  rewrite pattern_split.
  change (Discord.webhookUrl {| WebhookData.id := wid; WebhookData.token := wtok |})
    with ("https://discord.com/api/v10/webhooks/" +:+ (wid +:+ String "/" wtok)).
  rewrite prefix_canonical.
  apply group_rep_class_match; [exact Hid|lia|right; reflexivity|].
  change (RegExp.run true (RegExp.Group "token"
            (RegExp.Rep (RegExp.Class Discord.word_or_dash) 68 0))
            wtok [("id", wid)] (fun _ c => Some c)
          = Some [("token", wtok); ("id", wid)]).
  rewrite <- (append_empty_r wtok) at 1.
  apply group_rep_class_match; [exact Htok|lia|left; lia|reflexivity].
Qed.

Lemma resolve_webhookUrl_roundtrip_witness :
  Discord.resolveWebhookOptions
    (WebhookOptions.mk None None (Some (Discord.webhookUrl Sample2.webhook)))
  = Some Sample2.webhook.
Proof.
  apply resolve_webhookUrl_roundtrip; [|reflexivity].
  repeat split; vm_compute; try reflexivity; lia.
Defined.

(** X9. A target that comes out of the url field always has the
    documented shape: an id of 17 to 19 digits and a token of exactly 68
    word characters or dashes. *)
Theorem resolved_from_url_well_formed (o : WebhookOptions.t) (webhook : WebhookData.t) :
  JsString.truthy (WebhookOptions.id o) && JsString.truthy (WebhookOptions.token o) = false ->
  Discord.resolveWebhookOptions o = Some webhook ->
  well_formed webhook.
Proof.
  intros Hpair. unfold Discord.resolveWebhookOptions. rewrite Hpair.
  unfold Discord.WebhookUrlPattern_exec.
  destruct (RegExp.exec true Discord.WebhookUrlPattern _) as [groups|] eqn:E;
    [|discriminate].
  intros H. injection H as <-.
  apply exec_sound in E as (s & E). rewrite pattern_split in E.
  apply run_no_groups in E as (s1 & E); [|reflexivity].
  apply group_rep_class_sound in E as (d & rest & Hd & Hdl & E).
  cbn beta in E. destruct rest as [|x rest]; [discriminate E|].
  change ((if RegExp.chr_eq true "/" x
           then RegExp.run true
                  (RegExp.Group "token"
                     (RegExp.Rep (RegExp.Class Discord.word_or_dash) 68 0))
                  rest [("id", d)] (fun _ c => Some c)
           else None) = Some groups) in E.
  destruct (RegExp.chr_eq true "/" x); [|discriminate E].
  apply group_rep_class_sound in E as (tk & rest' & Ht & Htl & E).
  injection E as <-.
  unfold well_formed. simpl. repeat split; auto; lia.
Qed.

Lemma resolved_from_url_well_formed_witness :
  well_formed {| WebhookData.id := "12345678901234567"; WebhookData.token := Sample.token68 |}.
Proof.
  apply (resolved_from_url_well_formed
           (WebhookOptions.mk None (Some "ignored")
              (Some ("see HTTP://PTB.Discord.com/api/webhooks/12345678901234567/"
                     +:+ Sample.token68 +:+ "?wait=true"))));
    vm_compute; reflexivity.
Defined.

(** ** The aggregation and the two forwarders *)

(** Unfold an aggregation or a forwarder down to the answers of the
    world. *)
Ltac unfold_calls :=
  unfold Index.forwardNotification, Index.forwardNotification_try,
    Index.forwardRevocation, Index.forwardRevocation_try,
    Index.fetchEventSubStreamInfo, IndexV1.fetchEventSubStreamInfo,
    IndexV2.fetchEventSubStreamInfo, Twitch.authorize,
    Twitch.getStreams, Twitch.getChannels, Twitch.getUsers,
    Discord.executeWebhook, Discord.http_post in *.

Section Forwarding.
Context (w : World) (env : Env) (b : WebhookBody).

Local Abbreviation clientId := (TWITCH_CLIENT_ID env).
Local Abbreviation secret := (TWITCH_CLIENT_SECRET env).
Local Abbreviation broadcaster := (broadcaster_user_id (condition (subscription b))).
Local Abbreviation live :=
  {| StreamFilter.type := StreamFilterType.Live;
     StreamFilter.userIds := [broadcaster_user_id (condition (subscription b))] |}.

(** X10. The aggregation yields a merged view exactly when a token is
    obtained, all three lookups succeed, and both the channel and the user
    collection have a first element. A live stream is not needed, and it
    does not make up for a missing channel. *)
Theorem fetchEventSubStreamInfo_succeeds_iff :
  (exists info, result (Index.fetchEventSubStreamInfo w env b) = Ok info)
  <->
  (exists tok ss c cs u us,
      tokenResponse w clientId secret = Ok tok
      /\ streamsResponse w clientId tok live = Ok ss
      /\ channelsResponse w clientId tok [broadcaster] = Ok (c :: cs)
      /\ usersResponse w clientId tok [broadcaster] = Ok (u :: us)).
Proof.
  unfold_calls. split.
  - intros (info & H).
    destruct (tokenResponse w clientId secret) as [tok|e]; [|discriminate H].
    simpl in H. exists tok.
    destruct (streamsResponse w clientId tok live) as [ss|e1],
      (channelsResponse w clientId tok [broadcaster]) as [cs|e2],
      (usersResponse w clientId tok [broadcaster]) as [us|e3];
      try discriminate H.
    destruct ss as [|s ss], cs as [|c cs], us as [|u us]; try discriminate H;
      eauto 10.
  - intros (tok & ss & c & cs & u & us & Ht & Hs & Hc & Hu).
    rewrite Ht. simpl. rewrite Hs, Hc, Hu.
    destruct ss as [|s ss]; simpl; eauto.
Qed.

(** The aggregation itself posts nothing. *)
Lemma fetchEventSubStreamInfo_posts_nothing :
  Index.posted (log (Index.fetchEventSubStreamInfo w env b)) = [].
Proof.
  unfold_calls.
  destruct (tokenResponse w clientId secret) as [tok|e]; [|reflexivity]. simpl.
  destruct (streamsResponse w clientId tok live) as [ss|e1],
    (channelsResponse w clientId tok [broadcaster]) as [cs|e2],
    (usersResponse w clientId tok [broadcaster]) as [us|e3];
    try reflexivity.
  destruct ss as [|s ss], cs as [|c cs], us as [|u us]; reflexivity.
Qed.

(** X11. [forwardNotification] posts at most one message: the live
    notification built from the merged view, and only when the
    aggregation succeeded and the webhook target resolves. When the
    aggregation fails nothing is posted, not even a partial message. *)
Theorem forwardNotification_posts (timestamp : Num) :
  Index.posted (log (Index.forwardNotification w env b timestamp)) =
  match result (Index.fetchEventSubStreamInfo w env b),
        Discord.resolveWebhookOptions (Index.resolveWebhookEnvs env) with
  | Ok info, Some _ => [Index.notificationMessage w env info timestamp]
  | _, _ => []
  end.
Proof.
  pose proof fetchEventSubStreamInfo_posts_nothing as Hn.
  unfold Index.forwardNotification, Index.forwardNotification_try,
    Discord.executeWebhook, Discord.http_post.
  destruct (Index.fetchEventSubStreamInfo w env b) as [[info|e] l]; simpl in *.
  - destruct (Discord.resolveWebhookOptions (Index.resolveWebhookEnvs env)) as [wh|]; simpl.
    + destruct (fetchStatus w _ _) as [st|e]; simpl.
      * destruct (st =? 204); simpl; unfold Index.posted in *;
          rewrite ?app_nil_r, ?omap_app, Hn; reflexivity.
      * unfold Index.posted in *. rewrite ?omap_app, Hn. reflexivity.
    + unfold Index.posted in *. rewrite ?app_nil_r, ?omap_app, Hn. reflexivity.
  - unfold Index.posted in *. rewrite omap_app, Hn. reflexivity.
Qed.

(** X12. [forwardRevocation] posts at most one message: the revocation
    notice for the first channel record, and only when a token was
    obtained, the channel lookup returned a record and the webhook target
    resolves. For an unknown channel nothing is posted. *)
Theorem forwardRevocation_posts :
  Index.posted (log (Index.forwardRevocation w env b)) =
  match tokenResponse w clientId secret with
  | Ok tok =>
      match channelsResponse w clientId tok [broadcaster],
            Discord.resolveWebhookOptions (Index.resolveWebhookEnvs env) with
      | Ok (c :: _), Some _ =>
          [Index.revocationMessage env (Channel.broadcaster_name c)
             (JsString.replace "_" " " (status (subscription b)))]
      | _, _ => []
      end
  | Throw _ => []
  end.
Proof.
  unfold_calls.
  destruct (tokenResponse w clientId secret) as [tok|e]; [|reflexivity]. simpl.
  destruct (channelsResponse w clientId tok [broadcaster]) as [[|c cs]|e];
    simpl; try reflexivity.
  destruct (Discord.resolveWebhookOptions (Index.resolveWebhookEnvs env)) as [wh|];
    simpl; [|reflexivity].
  destruct (fetchStatus w _ _) as [st|e]; simpl; [|reflexivity].
  destruct (st =? 204); reflexivity.
Qed.

End Forwarding.

Section Wording.
Context (w : World) (env : Env) (b : WebhookBody) (timestamp : Num).

Local Abbreviation clientId := (TWITCH_CLIENT_ID env).
Local Abbreviation broadcaster := (broadcaster_user_id (condition (subscription b))).
Local Abbreviation live :=
  {| StreamFilter.type := StreamFilterType.Live;
     StreamFilter.userIds := [broadcaster_user_id (condition (subscription b))] |}.

(** X13. The live notification, end to end. The message mentions
    everyone and carries one embed, whose thumbnail is the user's avatar.
    With a live stream that has a start time, the embed says "went live"
    with the relative time of that start and shows the stream's
    thumbnail, when it has one. With no live stream, or a stream without
    a start time, it says "goes live" with the relative time of the
    request timestamp plus the channel's delay. *)
Theorem notification_wording (tok : string) (ss : list Stream.t)
    (c : Channel.t) (cs : list Channel.t) (u : User.t) (us : list User.t)
    (webhook : WebhookData.t) :
  tokenResponse w clientId (TWITCH_CLIENT_SECRET env) = Ok tok ->
  streamsResponse w clientId tok live = Ok ss ->
  channelsResponse w clientId tok [broadcaster] = Ok (c :: cs) ->
  usersResponse w clientId tok [broadcaster] = Ok (u :: us) ->
  Discord.resolveWebhookOptions (Index.resolveWebhookEnvs env) = Some webhook ->
  exists embed,
    Index.posted (log (Index.forwardNotification w env b timestamp))
    = [{| username := DISCORD_USERNAME env;
          avatar_url := DISCORD_AVATAR_URL env;
          content := Some "@everyone";
          embeds := Some [embed] |}]
    /\ Embed.thumbnail embed = Some {| EmbedVisual.url := User.profile_image_url u |}
    /\ Embed.description embed = Some
         match ss with
         | s :: _ =>
             "**" +:+ Stream.user_name s +:+ "** "
             +:+ (if String.eqb (Stream.started_at s) ""
                  then "goes live " +:+ relativeTimestamp w (num_add timestamp (Channel.delay c))
                  else "went live " +:+ relativeTimestamp w (Date_getTime w (Stream.started_at s)))
             +:+ JsString.newline +:+ "Playing **" +:+ Stream.game_name s +:+ "**"
         | [] =>
             "**" +:+ Channel.broadcaster_name c +:+ "** goes live "
             +:+ relativeTimestamp w (num_add timestamp (Channel.delay c))
             +:+ JsString.newline +:+ "Playing **" +:+ Channel.game_name c +:+ "**"
         end
    /\ Embed.image embed =
         match ss with
         | s :: _ =>
             if String.eqb (Stream.thumbnail_url s) "" then None
             else Some {| EmbedVisual.url := Stream.thumbnail_url s |}
         | [] => None
         end.
Proof.
  intros Ht Hs Hc Hu Hw.
  unfold_calls. rewrite Ht. simpl. rewrite Hs, Hc, Hu.
  destruct ss as [|s ss']; simpl; rewrite Hw.
  - eexists. split.
    + simpl. destruct (fetchStatus w _ _) as [st|e]; simpl;
        [destruct (st =? 204)|]; reflexivity.
    + simpl. repeat split.
  - eexists. split.
    + simpl. destruct (fetchStatus w _ _) as [st|e]; simpl;
        [destruct (st =? 204)|]; reflexivity.
    + simpl. split; [reflexivity|]. unfold Index.description. simpl.
      destruct (String.eqb (Stream.started_at s) ""); simpl;
        (split; [reflexivity|]);
        destruct (String.eqb (Stream.thumbnail_url s) ""); reflexivity.
Qed.

End Wording.

Lemma notification_wording_witness :
  exists embed,
    Index.posted (log (Index.forwardNotification Sample.online Sample.env
                         (Sample.body_of "stream.online" "enabled" None) (Fin 5)))
    = [{| username := Some "relay"; avatar_url := None;
          content := Some "@everyone"; embeds := Some [embed] |}]
    /\ Embed.image embed
       = Some {| EmbedVisual.url := "https://thumbs.example/live.jpg" |}.
Proof.
  destruct (notification_wording Sample.online Sample.env
              (Sample.body_of "stream.online" "enabled" None) (Fin 5)
              "bearer" [Sample.stream] Sample.channel [] Sample.user []
              {| WebhookData.id := "12345678901234567"; WebhookData.token := "webhook-token" |}
              eq_refl eq_refl eq_refl eq_refl eq_refl)
    as (embed & Hp & _ & _ & Hi).
  exists embed. split; [exact Hp|exact Hi].
Defined.

(** ** The earlier revisions against the current aggregation *)

Section Revisions.
Context (w : World) (env : Env) (b : WebhookBody).

Local Abbreviation clientId := (TWITCH_CLIENT_ID env).
Local Abbreviation secret := (TWITCH_CLIENT_SECRET env).
Local Abbreviation broadcaster := (broadcaster_user_id (condition (subscription b))).
Local Abbreviation live :=
  {| StreamFilter.type := StreamFilterType.Live;
     StreamFilter.userIds := [broadcaster_user_id (condition (subscription b))] |}.

(** X14. The sequential revision is lazy: with a live stream it never
    asks for the channel, and it succeeds from the stream alone, whatever
    the channel lookup would have answered. *)
Theorem v1_live_skips_channel (tok : string) (s : Stream.t) (ss : list Stream.t) :
  tokenResponse w clientId secret = Ok tok ->
  streamsResponse w clientId tok live = Ok (s :: ss) ->
  log (IndexV1.fetchEventSubStreamInfo w env b)
    = [Authorize clientId secret; GetStreams clientId tok live]
  /\ exists info,
       result (IndexV1.fetchEventSubStreamInfo w env b) = Ok info
       /\ IndexV1.userName info = Stream.user_name s
       /\ IndexV1.startedAt info = Some (Date_getTime w (Stream.started_at s))
       /\ IndexV1.thumbnailUrl info = Some (Stream.thumbnail_url s).
Proof.
  intros Ht Hs. unfold_calls. rewrite Ht. simpl. rewrite Hs. simpl.
  split; [reflexivity|]. eexists. split; [reflexivity|]. repeat split.
Qed.

(** X15. Whenever the current aggregation yields a view, the sequential
    revision yields one too, and the two agree on the seven merged fields
    and on the thumbnail; a start time of the current view is also the
    start time of the earlier one. *)
Theorem v1_agrees_with_current (info : StreamInfo) :
  result (Index.fetchEventSubStreamInfo w env b) = Ok info ->
  exists info1,
    result (IndexV1.fetchEventSubStreamInfo w env b) = Ok info1
    /\ IndexV1.userId info1 = userId info
    /\ IndexV1.userLogin info1 = userLogin info
    /\ IndexV1.userName info1 = userName info
    /\ IndexV1.gameId info1 = gameId info
    /\ IndexV1.gameName info1 = gameName info
    /\ IndexV1.title info1 = title info
    /\ IndexV1.language info1 = language info
    /\ IndexV1.thumbnailUrl info1 = thumbnailUrl info
    /\ (forall t, startedAt info = Some t -> IndexV1.startedAt info1 = Some t).
Proof.
  unfold_calls.
  destruct (tokenResponse w clientId secret) as [tok|e]; [|discriminate]. simpl.
  destruct (streamsResponse w clientId tok live) as [ss|e1],
    (channelsResponse w clientId tok [broadcaster]) as [cs|e2],
    (usersResponse w clientId tok [broadcaster]) as [us|e3];
    try discriminate.
  destruct ss as [|s ss], cs as [|c cs], us as [|u us]; try discriminate;
    simpl; intros H; injection H as <-;
    (eexists; split; [reflexivity|]); simpl; repeat split; try discriminate.
  intros t. destruct (String.eqb (Stream.started_at s) ""); simpl; congruence.
Qed.

(** X16. The current aggregation extends the revision without the user
    lookup: whenever it yields a view, that revision yields the same view
    less the avatar; and whenever that revision yields a view and the user
    lookup returns a record, the current one yields that view with the
    record's avatar. *)
Theorem v2_agrees_with_current :
  (forall info,
     result (Index.fetchEventSubStreamInfo w env b) = Ok info ->
     result (IndexV2.fetchEventSubStreamInfo w env b) = Ok (without_avatar info))
  /\ (forall info2 tok u us,
        result (IndexV2.fetchEventSubStreamInfo w env b) = Ok info2 ->
        tokenResponse w clientId secret = Ok tok ->
        usersResponse w clientId tok [broadcaster] = Ok (u :: us) ->
        exists info,
          result (Index.fetchEventSubStreamInfo w env b) = Ok info
          /\ without_avatar info = info2
          /\ userAvatarUrl info = User.profile_image_url u).
Proof.
  unfold_calls. split.
  - intros info.
    destruct (tokenResponse w clientId secret) as [tok|e]; [|discriminate]. simpl.
    destruct (streamsResponse w clientId tok live) as [ss|e1],
      (channelsResponse w clientId tok [broadcaster]) as [cs|e2],
      (usersResponse w clientId tok [broadcaster]) as [us|e3];
      try discriminate.
    destruct ss as [|s ss], cs as [|c cs], us as [|u us]; try discriminate;
      simpl; intros H; injection H as <-; reflexivity.
  - intros info2 tok u us H Ht Hu. rewrite Ht in *. simpl in *. rewrite Hu.
    destruct (streamsResponse w clientId tok live) as [ss|e1],
      (channelsResponse w clientId tok [broadcaster]) as [cs|e2];
      try discriminate.
    destruct ss as [|s ss], cs as [|c cs]; try discriminate;
      simpl in *; injection H as <-;
      (eexists; split; [reflexivity|]); split; reflexivity.
Qed.

End Revisions.

Lemma v1_live_skips_channel_witness :
  log (IndexV1.fetchEventSubStreamInfo Sample2.no_channel Sample.env
         (Sample.body_of "stream.online" "enabled" None))
  = [Authorize "client" "secret";
     GetStreams "client" "bearer"
       {| StreamFilter.type := "live"; StreamFilter.userIds := ["4242"] |}].
Proof.
  refine (proj1 (v1_live_skips_channel Sample2.no_channel Sample.env
                   (Sample.body_of "stream.online" "enabled" None)
                   "bearer" Sample.stream [] _ _)); reflexivity.
Defined.

Lemma v1_agrees_with_current_witness :
  exists info1,
    result (IndexV1.fetchEventSubStreamInfo Sample.online Sample.env
              (Sample.body_of "stream.online" "enabled" None)) = Ok info1
    /\ IndexV1.userName info1 = "Streamer".
Proof.
  destruct (v1_agrees_with_current Sample.online Sample.env
              (Sample.body_of "stream.online" "enabled" None) _ eq_refl)
    as (info1 & Hr & _ & _ & Hn & _).
  exists info1. split; [exact Hr|exact Hn].
Defined.

Lemma v2_agrees_with_current_witness :
  let b := Sample.body_of "stream.online" "enabled" None in
  (exists info2, result (IndexV2.fetchEventSubStreamInfo Sample.offline Sample.env b) = Ok info2)
  /\ exists info,
       result (Index.fetchEventSubStreamInfo Sample.offline Sample.env b) = Ok info
       /\ userAvatarUrl info = "https://img.example/avatar.png".
Proof.
  intros b. split.
  - eexists. apply (proj1 (v2_agrees_with_current Sample.offline Sample.env b)).
    reflexivity.
  - destruct (proj2 (v2_agrees_with_current Sample.offline Sample.env b)
                _ "bearer" Sample.user [] eq_refl eq_refl eq_refl)
      as (info & Hr & _ & Ha).
    exists info. split; [exact Hr|exact Ha].
Defined.

(** ** The statements above, run on concrete inputs *)

Lemma checkAge_warns_witness :
  log (Index.checkAge Sample2.late Sample.env (Fin 1704067200000) "2024-01-01T00:00:00Z")
  = [ConsoleWarn 1704067800000 (Fin 300000) "2024-01-01T00:00:00Z"].
Proof.
  destruct (checkAge_warns Sample2.late Sample.env (Fin 1704067200000)
              "2024-01-01T00:00:00Z") as (_ & _ & Hiff & Hlog).
  apply Hlog, Hiff. exists 1704067200000, 300000.
  split; [reflexivity|]. split; [reflexivity|]. vm_compute. reflexivity.
Defined.

Lemma fetchEventSubStreamInfo_succeeds_iff_witness :
  exists info,
    result (Index.fetchEventSubStreamInfo Sample.offline Sample.env
              (Sample.body_of "stream.online" "enabled" None)) = Ok info.
Proof.
  apply (proj2 (fetchEventSubStreamInfo_succeeds_iff Sample.offline Sample.env
                  (Sample.body_of "stream.online" "enabled" None))).
  exists "bearer", [], Sample.channel, [], Sample.user, [].
  repeat split.
Defined.
